(** * uwaterloo-tools: exam-archive scrapers and the commit viewer

    A shallow embedding of

    - [examSaver/src/index.ts]: the three-category exam scraper
      ([parseExams], [fetchPage], [processPages] and the top-level
      [processPages().catch(console.error)]);
    - the earlier single-category scraper (same three functions, one tag;
      the three-category draft that followed it is [index.ts] with the
      loop bounds 78, 19 and 5 and is not repeated here);
    - [github-org-commits/viewer/src/lib/commits.ts]
      ([_asString], [_asStringOrNull], [_parseCommitRow],
      [loadCommitsFromRepoJsonl]) and the [filtered]/[grouped] memos of
      [CommitsClient].

    JavaScript strings are modelled by [string]; a character stands for one
    code unit in the range 0..255.  Third-party libraries (cheerio, axios,
    SheetJS) and the host built-ins that depend on Unicode tables
    ([localeCompare], [toLowerCase], [JSON.parse]) are interfaces the code
    is written against: they appear as classes whose operations the
    embedded functions call exactly where the source calls them. *)

From Stdlib Require Import List String Ascii Bool Arith ZArith Lia.
From Stdlib Require Import Sorted Permutation OrdersEx.
From Stdlib Require Import DecimalString DecimalNat DecimalFacts.
Import ListNotations.
Open Scope string_scope.
Open Scope list_scope.
Open Scope nat_scope.
Set Warnings "-register-all".

(** ** Host built-ins used by the scripts *)

Module JS.

(** [WhiteSpace] and [LineTerminator] code units below 256:
    TAB, LF, VT, FF, CR, SP and NBSP. *)
Definition isWhiteSpace (c : ascii) : bool :=
  let n := nat_of_ascii c in
  existsb (Nat.eqb n) [9; 10; 11; 12; 13; 32; 160].

Fixpoint trimStart (s : string) : string :=
  match s with
  | EmptyString => EmptyString
  | String c s' => if isWhiteSpace c then trimStart s' else s
  end.

Fixpoint trimEnd (s : string) : string :=
  match s with
  | EmptyString => EmptyString
  | String c s' =>
      let t := trimEnd s' in
      if isWhiteSpace c && (t =? "")%string then EmptyString else String c t
  end.

(** [String.prototype.trim] *)
Definition trim (s : string) : string := trimEnd (trimStart s).

(** [String.prototype.includes] *)
Fixpoint includes (s sub : string) : bool :=
  prefix sub s
  || match s with
     | EmptyString => false
     | String _ s' => includes s' sub
     end.

(** Truthiness of a string value: every string but the empty one. *)
Definition truthy (s : string) : bool := negb (s =? "")%string.

(** Truthiness of [string | undefined]. *)
Definition truthy_opt (o : option string) : bool :=
  match o with
  | Some s => truthy s
  | None => false
  end.

(** [a || b] on [string | undefined | null] with a string default. *)
Definition or_else (o : option string) (d : string) : string :=
  match o with
  | Some s => if truthy s then s else d
  | None => d
  end.

(** Template-literal rendering of a non-negative integer: its decimal
    digits (a loop counter never leaves the range where JavaScript
    prints plain digits). *)
Definition Number_toString (n : nat) : string :=
  NilZero.string_of_uint (Nat.to_uint n).

(** [Array.prototype.sort(cmp)]: a stable sort; [x] stays in front of
    [y] when [cmp x y <= 0]. Written as a stable insertion sort. *)
Section Sort.
Context {A : Type} (cmp : A -> A -> Z).

Fixpoint insert (x : A) (l : list A) : list A :=
  match l with
  | [] => [x]
  | y :: l' => if (cmp x y <=? 0)%Z then x :: l else y :: insert x l'
  end.

Fixpoint sort (l : list A) : list A :=
  match l with
  | [] => []
  | x :: l' => insert x (sort l')
  end.
End Sort.

End JS.

(** ** The cheerio calls of the scrapers *)

Module Cheerio.

(** [load] is [cheerio.load]; [select doc sel] is [$(sel)];
    [find doc els sel] is [$(els).find(sel)]; [text] and [attr] are the
    methods of the same name ([attr] answers [None] for [undefined]). *)
Class API : Type := {
  cheerio_doc : Type;
  element : Type;
  load : string -> cheerio_doc;
  select : cheerio_doc -> string -> list element;
  find : cheerio_doc -> list element -> string -> list element;
  text : list element -> string;
  attr : list element -> string -> option string
}.

(** What the scrapers read from one listing block. *)
Section Listing.
Context `{API}.

(** The listing blocks of a page, in document order. *)
Definition blocks (doc : cheerio_doc) : list element :=
  select doc "article.list-article".

(** The trimmed title text of a block. *)
Definition block_title (doc : cheerio_doc) (el : element) : string :=
  JS.trim (text (find doc [el] "h2.entry-title")).

(** The link attribute of a block, as extracted. *)
Definition block_link (doc : cheerio_doc) (el : element)
  : option string :=
  attr (find doc [el] "div.entry-content a") "href".

(** The block has a non-empty title and a non-empty link. *)
Definition has_both (doc : cheerio_doc) (el : element) : bool :=
  JS.truthy (block_title doc el) && JS.truthy_opt (block_link doc el).
End Listing.

End Cheerio.

(** ** The SheetJS calls of the scrapers *)

Module Xlsx.

(** A record handed to [json_to_sheet]: its own properties in insertion
    order, all string-valued here. *)
Definition jsobject : Type := list (string * string).

(** A cell address as (column, row), both counted from 0. *)
Definition address : Type := (Z * Z)%type.

Record worksheet : Type := mkSheet {
  cells : list (address * string);
  ref : address * address
}.

Record workbook : Type := mkBook {
  SheetNames : list string;
  Sheets : list (string * worksheet)
}.

Definition address_eqb (a b : address) : bool :=
  (fst a =? fst b)%Z && (snd a =? snd b)%Z.

(** [ws[ref] = cell] *)
Fixpoint set_cell (a : address) (v : string)
         (cs : list (address * string)) : list (address * string) :=
  match cs with
  | [] => [(a, v)]
  | (b, w) :: cs' =>
      if address_eqb a b then (a, v) :: cs' else (b, w) :: set_cell a v cs'
  end.

Fixpoint get_cell (a : address) (cs : list (address * string))
  : option string :=
  match cs with
  | [] => None
  | (b, w) :: cs' => if address_eqb a b then Some w else get_cell a cs'
  end.

(** [hdr.indexOf(k)] *)
Fixpoint indexOf (k : string) (hdr : list string) : option nat :=
  match hdr with
  | [] => None
  | h :: hdr' =>
      if (h =? k)%string then Some 0
      else option_map S (indexOf k hdr')
  end.

(** The inner [keys(JS).forEach] of [sheet_add_json] for the record of
    index [R]: a key not yet in [hdr] is appended to it, and the value
    goes to column [C] of row [R + offset], with [offset = 1] (no
    [skipHeader] option). *)
Definition add_key (R : nat)
           (st : list string * list (address * string))
           (kv : string * string)
  : list string * list (address * string) :=
  let '(hdr, cs) := st in
  let '(k, v) := kv in
  let '(hdr, C) :=
    match indexOf k hdr with
    | Some C => (hdr, C)
    | None => (hdr ++ [k], List.length hdr)
    end in
  (hdr, set_cell (Z.of_nat C, Z.of_nat R + 1)%Z v cs).

Fixpoint add_rows (R : nat) (js : list jsobject)
         (st : list string * list (address * string))
  : list string * list (address * string) :=
  match js with
  | [] => st
  | o :: js' => add_rows (S R) js' (fold_left (add_key R) o st)
  end.

(** The header row: [ws[encode_col(C) + "1"] = {t:'s', v:hdr[C]}] for
    [C] from 0 to [hdr.length - 1]. *)
Fixpoint add_header (C : nat) (hdr : list string)
         (cs : list (address * string)) : list (address * string) :=
  match hdr with
  | [] => cs
  | h :: hdr' => add_header (S C) hdr' (set_cell (Z.of_nat C, 0%Z) h cs)
  end.

(** [utils.json_to_sheet(js)] with no options, that is
    [sheet_add_json(null, js, undefined)]: the header is the list of
    keys met in the records, in order of first appearance; the range
    ends at row [js.length - 1 + 1] and column
    [max(0, hdr.length - 1)]. *)
Definition json_to_sheet (js : list jsobject) : worksheet :=
  let '(hdr, cs) := add_rows 0 js ([], []) in
  let range :=
    ((0, 0), (Z.max 0 (Z.of_nat (List.length hdr) - 1),
              Z.of_nat (List.length js) - 1 + 1))%Z in
  mkSheet (add_header 0 hdr cs) range.

(** [utils.book_new()] *)
Definition book_new : workbook := mkBook [] [].

(** [utils.book_append_sheet(wb, ws, name)] for a given, well-formed
    [name]: [None] stands for the exception thrown when the book
    already has a sheet of that name. *)
Definition book_append_sheet (wb : workbook) (ws : worksheet)
           (name : string) : option workbook :=
  if existsb (String.eqb name) (SheetNames wb) then None
  else Some (mkBook (SheetNames wb ++ [name]) (Sheets wb ++ [(name, ws)])).

(** The text of row [r] of a sheet, column by column over the columns
    of its range; an absent cell reads [None]. *)
Definition row_cells (ws : worksheet) (r : Z) : list (option string) :=
  let '((c0, _), (c1, _)) := ref ws in
  map (fun i => get_cell (c0 + Z.of_nat i, r)%Z (cells ws))
      (seq 0 (Z.to_nat (c1 - c0 + 1))).

End Xlsx.

(** ** The host: network, console, timers, files, promises *)

Module Node.

Inductive error : Type :=
| NetworkError                   (* axios: the request got no response *)
| BadStatus (status : nat)       (* axios: status outside 200..299 *)
| LibraryError (msg : string).   (* an exception of a library call *)

Inductive event : Type :=
| ConsoleLog (msg : string)
| ConsoleError (e : error)
| HttpGet (url : string) (cookie : option string)
| Timeout (ms : nat)
| WriteFile (name : string) (wb : Xlsx.workbook).

(** What the network answers to a GET. *)
Inductive reply : Type :=
| NoResponse
| Response (status : nat) (data : string).

(** [response.data] as axios hands it over. Its default
    [transformResponse] gives the body to [JSON.parse] and keeps the
    body itself only where that fails: a body that is JSON text arrives
    as the value it denotes, a string, null, a boolean, a number, or an
    array or object. A number and an array or object are kept here as
    the text they were parsed from. *)
Inductive json_data : Type :=
| DString (s : string)
| DNull
| DBoolean (b : bool)
| DNumber (text : string)
| DCompound (text : string).

(** The surroundings of one run: the environment variable [COOKIES];
    the remote site, whose answer may depend on everything that
    happened before the request; [JSON.parse] ([None] where it throws);
    and what becomes of [parseExams] when it is handed an array or an
    object in place of the string it declares, which is up to the
    internals of cheerio: [inl] for an exception with its message,
    [inr] for the title and the text of the link of each record the
    callback pushes. *)
Class Host : Type := {
  COOKIES : option string;
  http : list event -> string -> option string -> reply;
  JSON_parse : string -> option json_data;
  load_compound : string -> string + list (string * string)
}.

(** How a call or an awaited promise ends. *)
Inductive completion (A : Type) : Type :=
| Normal (a : A)
| Throw (e : error).
Arguments Normal {A} a.
Arguments Throw {A} e.

(** A computation takes the events so far and gives its completion and
    the events so far afterwards; an exception skips what follows. *)
Definition M (A : Type) : Type := list event -> completion A * list event.

Definition ret {A} (a : A) : M A := fun tr => (Normal a, tr).

Definition bind {A B} (m : M A) (k : A -> M B) : M B :=
  fun tr =>
    match m tr with
    | (Normal a, tr') => k a tr'
    | (Throw e, tr') => (Throw e, tr')
    end.

Definition throw {A} (e : error) : M A := fun tr => (Throw e, tr).

Definition emit (ev : event) : M unit := fun tr => (Normal tt, tr ++ [ev]).

Definition console_log (msg : string) : M unit := emit (ConsoleLog msg).
Definition console_error (e : error) : M unit := emit (ConsoleError e).

(** [await new Promise(resolve => setTimeout(resolve, ms))] *)
Definition setTimeout (ms : nat) : M unit := emit (Timeout ms).

(** [xlsx.writeFile(wb, name)] *)
Definition writeFile (wb : Xlsx.workbook) (name : string) : M unit :=
  emit (WriteFile name wb).

Record AxiosResponse : Type := mkResponse {
  status : nat;
  data : json_data
}.

(** The default [transformResponse] of axios: a non-empty body goes
    through [JSON.parse], whose exception is swallowed. *)
Definition transformResponse `{Host} (body : string) : json_data :=
  if JS.truthy body then
    match JSON_parse body with
    | Some parsed => parsed
    | None => DString body
    end
  else DString body.

(** [await axios.get(url, { headers: { Cookie } })] with the default
    [validateStatus] and [transformResponse]: the promise is fulfilled
    for a status in 200..299 and rejected otherwise. *)
Definition axios_get `{Host} (url : string) (cookie : option string)
  : M AxiosResponse :=
  fun tr =>
    let tr' := tr ++ [HttpGet url cookie] in
    match http tr url cookie with
    | NoResponse => (Throw NetworkError, tr')
    | Response st body =>
        if (200 <=? st) && (st <? 300)
        then (Normal (mkResponse st (transformResponse body)), tr')
        else (Throw (BadStatus st), tr')
    end.

(** The exception of [cheerio.load] on null, a boolean or a number: it
    takes what is not a string for a node of a document. *)
Definition load_error : error := LibraryError "cheerio.load".

(** The exception [parseExams] ends with on the data of a page, if
    any. *)
Definition parse_error `{Host} (d : json_data) : option error :=
  match d with
  | DString _ => None
  | DNull | DBoolean _ | DNumber _ => Some load_error
  | DCompound text =>
      match load_compound text with
      | inl msg => Some (LibraryError msg)
      | inr _ => None
      end
  end.

(** The error with which the step of a page ends on a reply, if any:
    the rejection of axios, or else the exception of the parse. *)
Definition page_error `{Host} (r : reply) : option error :=
  match r with
  | NoResponse => Some NetworkError
  | Response st body =>
      if (200 <=? st) && (st <? 300)
      then parse_error (transformResponse body)
      else Some (BadStatus st)
  end.

(** The error with which [axios.get] rejects on a reply, if any. *)
Definition rejection (r : reply) : option error :=
  match r with
  | NoResponse => Some NetworkError
  | Response st _ =>
      if (200 <=? st) && (st <? 300) then None else Some (BadStatus st)
  end.

Definition is_get (ev : event) : bool :=
  match ev with HttpGet _ _ => true | _ => false end.

Definition is_pause (ev : event) : bool :=
  match ev with Timeout _ => true | _ => false end.

Definition is_write (ev : event) : bool :=
  match ev with WriteFile _ _ => true | _ => false end.

(** [p.catch(handler)]: the handler runs when [p] is rejected, and the
    promise it gives is then settled by the handler. *)
Definition catch {A} (p : M A) (handler : error -> M unit) : M unit :=
  fun tr =>
    match p tr with
    | (Normal _, tr') => (Normal tt, tr')
    | (Throw e, tr') => handler e tr'
    end.

(** A script is one top-level promise. Node leaves with status 0 when
    nothing is left to do, and with status 1 when a rejection was left
    unhandled; the scripts set no exit code themselves. *)
Definition exit_code {A} (c : completion A) : Z :=
  match c with
  | Normal _ => 0
  | Throw _ => 1
  end.

Record outcome : Type := mkOutcome {
  events : list event;
  exit_status : Z
}.

Definition run {A} (script : M A) : outcome :=
  let '(c, tr) := script [] in mkOutcome tr (exit_code c).

(** [for (let page = 0; page <= bound; page++) body]: [iterate n page]
    runs the body for [page], [page + 1], ..., [n] times in all; the
    array the body pushes to is threaded through. *)
Fixpoint iterate {A} (n : nat) (page : nat)
         (body : nat -> A -> M A) (acc : A) : M A :=
  match n with
  | O => ret acc
  | S n' => bind (body page acc) (iterate n' (S page) body)
  end.

Definition for_upto {A} (bound : nat) (body : nat -> A -> M A) (acc : A)
  : M A :=
  iterate (S bound) 0 body acc.

End Node.

Notation "x <- m ;; k" := (Node.bind m (fun x => k))
  (at level 61, m at next level, right associativity).
Notation "m ;;; k" := (Node.bind m (fun _ => k))
  (at level 61, right associativity).

(** ** examSaver/src/index.ts *)

Module ExamSaver.
Import Cheerio Node.

(** The object literal [{ title, url, category }]. *)
Record Exam : Type := mkExam {
  title : string;
  url : string;
  category : string
}.

Definition toObject (e : Exam) : Xlsx.jsobject :=
  [("title", title e); ("url", url e); ("category", category e)].

(** [const delay = (ms) => new Promise(...)] *)
Definition delay (ms : nat) : M unit := setTimeout ms.

Section ParseExams.
Context `{Cheerio.API}.

(** One turn of the [.each] callback: [exams] is the array being
    filled, the result is the array after the callback. *)
Definition parseExams_each (doc : cheerio_doc) (category : string)
           (exams : list Exam) (el : element) : list Exam :=
  let title := JS.trim (text (find doc [el] "h2.entry-title")) in
  let link := attr (find doc [el] "div.entry-content a") "href" in
  if JS.truthy title then
    match link with
    | Some link =>
        if JS.truthy link then
          exams ++ [mkExam title
                           ("https://exams.engsoc.uwaterloo.ca/" ++ link)
                           category]
        else exams
    | None => exams
    end
  else exams.

Definition parseExams (html : string) (category : string) : list Exam :=
  let doc := load html in
  fold_left (parseExams_each doc category)
            (select doc "article.list-article") [].
End ParseExams.

(** The [switch (category)] of [fetchPage]. *)
Definition tag_of (category : string) : string :=
  if (category =? "Mathematics")%string then "mathematics"
  else if (category =? "Math")%string then "math"
  else "electrical-and-computer".

(** The [url] constant of [fetchPage]. *)
Definition fetchPage_url (page : nat) (category : string) : string :=
  let baseUrl := "https://exams.engsoc.uwaterloo.ca/" in
  let tag := tag_of category in
  if page =? 0
  then baseUrl ++ "?tag=" ++ tag
  else baseUrl ++ "?tag=" ++ tag ++ "&paged=" ++ JS.Number_toString page.

Section Run.
Context `{Cheerio.API} `{Node.Host}.

Definition fetchPage (page : nat) (category : string) : M json_data :=
  response <- axios_get (fetchPage_url page category) COOKIES ;;
  ret (data response).

(** [parseExams(html, category)] on what [fetchPage] returned, which
    the types let through whatever it is. *)
Definition parse_page (html : json_data) (category : string)
  : M (list Exam) :=
  match html with
  | DString html => ret (parseExams html category)
  | DNull | DBoolean _ | DNumber _ => throw load_error
  | DCompound text =>
      match load_compound text with
      | inl msg => throw (LibraryError msg)
      | inr pushed =>
          ret (map (fun record =>
                      mkExam (fst record)
                             ("https://exams.engsoc.uwaterloo.ca/"
                              ++ snd record)
                             category)
                   pushed)
      end
  end.

(** The body shared by the three loops of [processPages]. *)
Definition page_step (category : string) (page : nat)
           (allExams : list Exam) : M (list Exam) :=
  console_log ("Fetching " ++ category ++ " page "
               ++ JS.Number_toString page ++ "...") ;;;
  html <- fetchPage page category ;;
  exams <- parse_page html category ;;
  let allExams := allExams ++ exams in
  delay 1000 ;;;
  ret allExams.

Definition export (allExams : list Exam) : M unit :=
  let worksheet := Xlsx.json_to_sheet (map toObject allExams) in
  let workbook := Xlsx.book_new in
  match Xlsx.book_append_sheet workbook worksheet "Exams" with
  | None => throw (LibraryError "Worksheet already exists")
  | Some workbook =>
      writeFile workbook "exams.xlsx" ;;;
      console_log "Exams saved to exams.xlsx"
  end.

Definition processPages : M unit :=
  let allExams := [] in
  allExams <- for_upto 80 (page_step "ECE") allExams ;;
  allExams <- for_upto 20 (page_step "Mathematics") allExams ;;
  allExams <- for_upto 5 (page_step "Math") allExams ;;
  export allExams.

(** The last line of the script:
    [processPages().catch(console.error)]. *)
Definition main : M unit := catch processPages console_error.

(** What one page leaves in the log of events when it is fetched and
    parsed without error: the progress line, the request, the pause. *)
Definition page_events (step : string * nat) : list event :=
  let '(category, page) := step in
  [ConsoleLog ("Fetching " ++ category ++ " page "
               ++ JS.Number_toString page ++ "...");
   HttpGet (fetchPage_url page category) COOKIES;
   Timeout 1000].
End Run.

(** The pages of a run, in the order of the three loops. *)
Definition schedule : list (string * nat) :=
  map (pair "ECE"%string) (seq 0 81)
  ++ map (pair "Mathematics"%string) (seq 0 21)
  ++ map (pair "Math"%string) (seq 0 6).

End ExamSaver.

(** ** The earlier single-category scraper *)

Module EceScraper.
Import Cheerio Node.

(** The object literal [{ title, url }]. *)
Record Exam : Type := mkExam {
  title : string;
  url : string
}.

Definition toObject (e : Exam) : Xlsx.jsobject :=
  [("title", title e); ("url", url e)].

Definition delay (ms : nat) : M unit := setTimeout ms.

Section ParseExams.
Context `{Cheerio.API}.

Definition parseExams_each (doc : cheerio_doc)
           (exams : list Exam) (el : element) : list Exam :=
  let title := JS.trim (text (find doc [el] "h2.entry-title")) in
  let link := attr (find doc [el] "div.entry-content a") "href" in
  if JS.truthy title then
    match link with
    | Some link =>
        if JS.truthy link then
          exams ++ [mkExam title
            ("https://exams.engsoc.uwaterloo.ca/?tag=electrical-and-computer/"
             ++ link)]
        else exams
    | None => exams
    end
  else exams.

Definition parseExams (html : string) : list Exam :=
  let doc := load html in
  fold_left (parseExams_each doc) (select doc "article.list-article") [].
End ParseExams.

Definition fetchPage_url (page : nat) : string :=
  if page =? 0
  then "https://exams.engsoc.uwaterloo.ca/?tag=electrical-and-computer"
  else "https://exams.engsoc.uwaterloo.ca/?tag=electrical-and-computer&paged="
       ++ JS.Number_toString page.

Section Run.
Context `{Cheerio.API} `{Node.Host}.

Definition fetchPage (page : nat) : M json_data :=
  response <- axios_get (fetchPage_url page) COOKIES ;;
  ret (data response).

(** [parseExams(html)] on what [fetchPage] returned. *)
Definition parse_page (html : json_data) : M (list Exam) :=
  match html with
  | DString html => ret (parseExams html)
  | DNull | DBoolean _ | DNumber _ => throw load_error
  | DCompound text =>
      match load_compound text with
      | inl msg => throw (LibraryError msg)
      | inr pushed =>
          ret (map (fun record =>
                      mkExam (fst record)
                             ("https://exams.engsoc.uwaterloo.ca/?tag=electrical-and-computer/"
                              ++ snd record))
                   pushed)
      end
  end.

Definition page_step (page : nat) (allExams : list Exam)
  : M (list Exam) :=
  console_log ("Fetching page " ++ JS.Number_toString page ++ "...") ;;;
  html <- fetchPage page ;;
  exams <- parse_page html ;;
  let allExams := allExams ++ exams in
  delay 1000 ;;;
  ret allExams.

Definition export (allExams : list Exam) : M unit :=
  let worksheet := Xlsx.json_to_sheet (map toObject allExams) in
  let workbook := Xlsx.book_new in
  match Xlsx.book_append_sheet workbook worksheet "Exams" with
  | None => throw (LibraryError "Worksheet already exists")
  | Some workbook =>
      writeFile workbook "exams.xlsx" ;;;
      console_log "Exams saved to exams.xlsx"
  end.

Definition processPages : M unit :=
  let allExams := [] in
  allExams <- for_upto 78 page_step allExams ;;
  export allExams.

Definition main : M unit := catch processPages console_error.
End Run.

End EceScraper.

(** ** github-org-commits/viewer *)

Module Viewer.

(** *** lib/commits.ts *)

Record CommitRow : Type := mkCommitRow {
  org : string;
  repo : string;
  repo_full_name : string;
  sha : string;
  html_url : string;
  api_url : string;
  author_login : option string;
  committer_login : option string;
  commit_author_name : option string;
  commit_author_email : option string;
  commit_author_date : option string;
  commit_committer_name : option string;
  commit_committer_email : option string;
  commit_committer_date : option string;
  message : string
}.

(** What [JSON.parse] can give. An object lists its own properties. *)
Inductive json (number : Type) : Type :=
| JNull
| JBool (b : bool)
| JNumber (n : number)
| JString (s : string)
| JArray (items : list (json number))
| JObject (props : list (string * json number)).
Arguments JNull {number}.
Arguments JBool {number} b.
Arguments JNumber {number} n.
Arguments JString {number} s.
Arguments JArray {number} items.
Arguments JObject {number} props.

Inductive exn : Type :=
| SyntaxError            (* JSON.parse *)
| TypeError              (* no primitive value for an object *)
| IOError (msg : string) (* readFile *).

Inductive result (A : Type) : Type :=
| Ok (a : A)
| Raise (e : exn).
Arguments Ok {A} a.
Arguments Raise {A} e.

Definition rbind {A B} (r : result A) (k : A -> result B) : result B :=
  match r with
  | Ok a => k a
  | Raise e => Raise e
  end.

(** The engine and the file system under the viewer. [JSON_parse]
    answers [None] where [JSON.parse] throws a [SyntaxError];
    [readFile_out_jsonl] is
    [await readFile(path.resolve(process.cwd(), "..", "out.jsonl"),
    "utf-8")]. *)
Class Engine : Type := {
  number : Type;
  Number_toString : number -> string;
  Number_truthy : number -> bool;
  JSON_parse : string -> option (json number);
  toLowerCase : string -> string;
  localeCompare : string -> string -> Z;
  readFile_out_jsonl : result string
}.

(** A consistent comparison function, which the language requires
    [localeCompare] to be: the sign flips with the arguments, and
    "not after" is transitive. *)
Definition consistent {A} (cmp : A -> A -> Z) : Prop :=
  (forall a b, (cmp a b < 0 <-> 0 < cmp b a)%Z)
  /\ (forall a b c, (cmp a b <= 0 -> cmp b c <= 0 -> cmp a c <= 0)%Z).

Section Commits.
Context `{Engine}.

Definition value : Type := json number.

Fixpoint lookup (k : string) (props : list (string * value))
  : option value :=
  match props with
  | [] => None
  | (k', v) :: props' =>
      if (k' =? k)%string then Some v else lookup k props'
  end.

(** [o.k] for one of the field names read by [_parseCommitRow]:
    an own property of an object, [undefined] on an array. *)
Definition get (o : value) (k : string) : option value :=
  match o with
  | JObject props => lookup k props
  | _ => None
  end.

(** [String(v)]. An array is joined with commas, [null] items
    giving the empty string. An object gives ["[object Object]"]
    through [Object.prototype.toString], unless an own property
    [toString] hides that method: a parsed value is never callable,
    and [valueOf] gives no primitive either, so the conversion throws
    a [TypeError]. *)
Fixpoint String_ (v : value) : result string :=
  match v with
  | JNull => Ok "null"
  | JBool b => Ok (if b then "true" else "false")
  | JNumber n => Ok (Number_toString n)
  | JString s => Ok s
  | JArray items =>
      let join :=
        fix join (items : list value) : result (list string) :=
          match items with
          | [] => Ok []
          | x :: items' =>
              rbind (match x with
                     | JNull => Ok ""
                     | _ => String_ x
                     end)
                    (fun s => rbind (join items')
                                    (fun r => Ok (s :: r)))
          end in
      rbind (join items) (fun l => Ok (String.concat "," l))
  | JObject props =>
      match lookup "toString" props with
      | Some _ => Raise TypeError
      | None => Ok "[object Object]"
      end
  end.

Definition _asStringOrNull (v : option value) : result (option string) :=
  match v with
  | None | Some JNull => Ok None
  | Some v => rbind (String_ v) (fun s => Ok (Some s))
  end.

Definition _asString (v : option value) : result string :=
  match v with
  | None | Some JNull => Ok ""
  | Some v => String_ v
  end.

(** Every field of [row] is the coercion of the property of the same
    name among [props]. *)
Definition coerced_from (props : list (string * value))
           (row : CommitRow) : Prop :=
  _asString (lookup "org" props) = Ok (org row)
  /\ _asString (lookup "repo" props) = Ok (repo row)
  /\ _asString (lookup "repo_full_name" props) = Ok (repo_full_name row)
  /\ _asString (lookup "sha" props) = Ok (sha row)
  /\ _asString (lookup "html_url" props) = Ok (html_url row)
  /\ _asString (lookup "api_url" props) = Ok (api_url row)
  /\ _asStringOrNull (lookup "author_login" props)
     = Ok (author_login row)
  /\ _asStringOrNull (lookup "committer_login" props)
     = Ok (committer_login row)
  /\ _asStringOrNull (lookup "commit_author_name" props)
     = Ok (commit_author_name row)
  /\ _asStringOrNull (lookup "commit_author_email" props)
     = Ok (commit_author_email row)
  /\ _asStringOrNull (lookup "commit_author_date" props)
     = Ok (commit_author_date row)
  /\ _asStringOrNull (lookup "commit_committer_name" props)
     = Ok (commit_committer_name row)
  /\ _asStringOrNull (lookup "commit_committer_email" props)
     = Ok (commit_committer_email row)
  /\ _asStringOrNull (lookup "commit_committer_date" props)
     = Ok (commit_committer_date row)
  /\ _asString (lookup "message" props) = Ok (message row).

(** [!!obj] *)
Definition truthy (v : value) : bool :=
  match v with
  | JNull => false
  | JBool b => b
  | JNumber n => Number_truthy n
  | JString s => JS.truthy s
  | JArray _ | JObject _ => true
  end.

(** [typeof obj] *)
Definition typeof (v : value) : string :=
  match v with
  | JBool _ => "boolean"
  | JNumber _ => "number"
  | JString _ => "string"
  | JNull | JArray _ | JObject _ => "object"
  end.

Definition _parseCommitRow (obj : value) : result (option CommitRow) :=
  if negb (truthy obj) || negb (typeof obj =? "object")%string
  then Ok None
  else
    let o := obj in
    rbind (_asString (get o "sha")) (fun sha =>
    if negb (JS.truthy sha) then Ok None else
    rbind (_asString (get o "org")) (fun org =>
    rbind (_asString (get o "repo")) (fun repo =>
    rbind (_asString (get o "repo_full_name")) (fun repo_full_name =>
    rbind (_asString (get o "html_url")) (fun html_url =>
    rbind (_asString (get o "api_url")) (fun api_url =>
    rbind (_asStringOrNull (get o "author_login")) (fun author_login =>
    rbind (_asStringOrNull (get o "committer_login"))
          (fun committer_login =>
    rbind (_asStringOrNull (get o "commit_author_name"))
          (fun commit_author_name =>
    rbind (_asStringOrNull (get o "commit_author_email"))
          (fun commit_author_email =>
    rbind (_asStringOrNull (get o "commit_author_date"))
          (fun commit_author_date =>
    rbind (_asStringOrNull (get o "commit_committer_name"))
          (fun commit_committer_name =>
    rbind (_asStringOrNull (get o "commit_committer_email"))
          (fun commit_committer_email =>
    rbind (_asStringOrNull (get o "commit_committer_date"))
          (fun commit_committer_date =>
    rbind (_asString (get o "message")) (fun message =>
    Ok (Some (mkCommitRow org repo repo_full_name sha html_url api_url
                author_login committer_login commit_author_name
                commit_author_email commit_author_date
                commit_committer_name commit_committer_email
                commit_committer_date message))))))))))))))))).

Definition is_LF (c : ascii) : bool := nat_of_ascii c =? 10.
Definition is_CR (c : ascii) : bool := nat_of_ascii c =? 13.

(** [raw.split(/\r?\n/)] *)
Fixpoint split_lines (s : string) : list string :=
  match s with
  | EmptyString => [EmptyString]
  | String c s' =>
      let keep (rest : list string) :=
        match rest with
        | l :: ls => String c l :: ls
        | [] => [String c EmptyString]
        end in
      if is_LF c then EmptyString :: split_lines s'
      else
        match s' with
        | String d s'' =>
            if is_CR c && is_LF d then EmptyString :: split_lines s''
            else keep (split_lines s')
        | EmptyString => keep (split_lines s')
        end
  end.

(** The [try] block of the loop body. *)
Definition try_line (s : string) : result (option CommitRow) :=
  rbind (match JSON_parse s with
         | Some parsed => Ok parsed
         | None => Raise SyntaxError
         end)
        _parseCommitRow.

(** One turn of the [for ... of] loop over the lines; [rows] is the
    array being filled. *)
Definition load_line (rows : list CommitRow) (line : string)
  : list CommitRow :=
  let s := JS.trim line in
  if negb (JS.truthy s) then rows
  else
    match try_line s with
    | Ok (Some row) => rows ++ [row]
    | Ok None => rows
    | Raise _ => rows
    end.

(** The comparison handed to [rows.sort]. *)
Definition by_date_desc (a b : CommitRow) : Z :=
  localeCompare (JS.or_else (commit_author_date b) "")
                (JS.or_else (commit_author_date a) "").

(** The body of [loadCommitsFromRepoJsonl] once the file is read. *)
Definition load_rows (raw : string) : list CommitRow :=
  let rows := fold_left load_line (split_lines raw) [] in
  JS.sort by_date_desc rows.

Definition loadCommitsFromRepoJsonl : result (list CommitRow) :=
  rbind readFile_out_jsonl (fun raw => Ok (load_rows raw)).

(** What one line adds to the rows. *)
Definition line_rows (line : string) : list CommitRow :=
  load_line [] line.

(** The key under which [grouped] files a commit. *)
Definition group_key (c : CommitRow) : string :=
  JS.or_else (Some (repo_full_name c)) "(unknown repo)".

(** The date string by which [loadCommitsFromRepoJsonl] orders. *)
Definition date_key (c : CommitRow) : string :=
  JS.or_else (commit_author_date c) "".

(** *** app/CommitsClient.tsx: the memoised values *)

(** [new Set<string>()] then [s.add] *)
Definition Set_add (x : string) (s : list string) : list string :=
  if existsb (String.eqb x) s then s else s ++ [x].

Definition repos (commits : list CommitRow) : list string :=
  let s :=
    fold_left (fun s c =>
                 if JS.truthy (repo_full_name c)
                 then Set_add (repo_full_name c) s else s)
              commits [] in
  "all" :: JS.sort localeCompare s.

Definition filtered (commits : list CommitRow) (q repo : string)
  : list CommitRow :=
  let query := toLowerCase (JS.trim q) in
  filter (fun c =>
            if negb (repo =? "all")%string
               && negb (repo_full_name c =? repo)%string
            then false
            else if negb (JS.truthy query) then true
            else JS.includes (toLowerCase (sha c)) query
                 || JS.includes (toLowerCase (repo_full_name c)) query
                 || JS.includes
                      (toLowerCase (JS.or_else (Some (message c)) ""))
                      query)
         commits.

(** [new Map<string, CommitRow[]>()]: the entries in insertion
    order. *)
Definition Map_ : Type := list (string * list CommitRow).

Fixpoint Map_get (key : string) (m : Map_) : option (list CommitRow) :=
  match m with
  | [] => None
  | (k, arr) :: m' => if (k =? key)%string then Some arr else Map_get key m'
  end.

Fixpoint Map_set (key : string) (arr : list CommitRow) (m : Map_) : Map_ :=
  match m with
  | [] => [(key, arr)]
  | (k, old) :: m' =>
      if (k =? key)%string then (k, arr) :: m'
      else (k, old) :: Map_set key arr m'
  end.

(** One turn of the loop of [grouped]. [arr.push(c)] changes the
    array the map holds under [key]. *)
Definition group_step (m : Map_) (c : CommitRow) : Map_ :=
  let key := JS.or_else (Some (repo_full_name c)) "(unknown repo)" in
  match Map_get key m with
  | Some arr => Map_set key (arr ++ [c]) m
  | None => Map_set key [c] m
  end.

Definition grouped (filtered : list CommitRow) : Map_ :=
  let m := fold_left group_step filtered [] in
  JS.sort (fun a b => localeCompare (fst a) (fst b)) m.

(** *** app/page.tsx *)

Inductive page : Type :=
| FailedToLoad (e : exn)
| NoCommitsFound
| CommitsClient (shown total : nat) (sections : Map_).

(** [Home], with the state [q], [repo] of the client component. *)
Definition Home (q repo : string) : page :=
  match loadCommitsFromRepoJsonl with
  | Raise e => FailedToLoad e
  | Ok commits =>
      if List.length commits =? 0 then NoCommitsFound
      else
        let shown := filtered commits q repo in
        CommitsClient (List.length shown) (List.length commits)
                      (grouped shown)
  end.
End Commits.

End Viewer.

(** ** Small stand-ins for the interfaces, used to run the code *)

Module Sample.
Import Node.

(** A document tree with text and element nodes. *)
Inductive node : Type :=
| Text (data : string)
| Tag (name : string) (attribs : list (string * string))
      (children : list node).

Fixpoint split_on (c : ascii) (s : string) : list string :=
  match s with
  | EmptyString => [EmptyString]
  | String d s' =>
      if Ascii.eqb c d then EmptyString :: split_on c s'
      else match split_on c s' with
           | l :: ls => String d l :: ls
           | [] => [String d EmptyString]
           end
  end.

Fixpoint assoc (k : string) (l : list (string * string)) : option string :=
  match l with
  | [] => None
  | (k', v) :: l' => if (k' =? k)%string then Some v else assoc k l'
  end.

(** [n] is an element matching the compound selector [name.class]. *)
Definition matches (compound : string) (n : node) : bool :=
  match n, split_on "." compound with
  | Tag name attribs _, tag :: classes =>
      (name =? tag)%string
      && forallb (fun c =>
                    existsb (String.eqb c)
                            (split_on " " (JS.or_else (assoc "class" attribs) "")))
                 classes
  | _, _ => false
  end.

(** All nodes strictly below [n], in document order. *)
Fixpoint below (n : node) : list node :=
  match n with
  | Text _ => []
  | Tag _ _ children =>
      (fix go (l : list node) : list node :=
         match l with
         | [] => []
         | c :: l' => c :: below c ++ go l'
         end) children
  end.

(** The nodes reached from [roots] along a chain of compound
    selectors joined by the descendant combinator. *)
Fixpoint query (chain : list string) (roots : list node) : list node :=
  match chain with
  | [] => roots
  | c :: chain' => query chain' (filter (matches c) (flat_map below roots))
  end.

Fixpoint textContent (n : node) : string :=
  match n with
  | Text data => data
  | Tag _ _ children =>
      (fix go (l : list node) : string :=
         match l with
         | [] => EmptyString
         | c :: l' => (textContent c ++ go l')%string
         end) children
  end.

(** A cheerio whose [load] is the given parser. *)
Definition cheerio (parse : string -> node) : Cheerio.API := {|
  Cheerio.cheerio_doc := node;
  Cheerio.element := node;
  Cheerio.load := parse;
  Cheerio.select := fun doc sel => query (split_on " " sel) [doc];
  Cheerio.find := fun _ els sel => query (split_on " " sel) els;
  Cheerio.text := fun els => String.concat "" (map textContent els);
  Cheerio.attr := fun els name =>
    match els with
    | Tag _ attribs _ :: _ => assoc name attribs
    | _ => None
    end
|}.

(** A page with two listing blocks: a complete one and one whose title
    is empty. *)
Definition complete_block : node :=
  Tag "article" [("class", "list-article")]
    [Tag "h2" [("class", "entry-title")] [Text " Final 2020 "];
     Tag "div" [("class", "entry-content")]
       [Tag "a" [("href", "/papers/f20.pdf")] [Text "Download"]]].

Definition untitled_block : node :=
  Tag "article" [("class", "list-article")]
    [Tag "h2" [("class", "entry-title")] [Text "  "];
     Tag "div" [("class", "entry-content")]
       [Tag "a" [("href", "/papers/w19.pdf")] [Text "Download"]]].

Definition two_blocks : node :=
  Tag "html" [] [Tag "body" [] [complete_block; untitled_block]].

Definition two_blocks_cheerio : Cheerio.API := cheerio (fun _ => two_blocks).

(** A [JSON.parse] that knows null, the booleans and one number. *)
Definition parse_scalar (s : string) : option json_data :=
  if (s =? "null")%string then Some DNull
  else if (s =? "true")%string then Some (DBoolean true)
  else if (s =? "false")%string then Some (DBoolean false)
  else if (s =? "123")%string then Some (DNumber "123")
  else None.

(** A site given by its replies to the URLs. *)
Definition site_host (site : string -> reply) : Host := {|
  COOKIES := Some "session=1";
  http := fun _ url _ => site url;
  JSON_parse := parse_scalar;
  load_compound := fun _ => inl "cheerio"%string
|}.

(** A site that answers every request with the same status and body. *)
Definition constant_host (st : nat) (body : string) : Host :=
  site_host (fun _ => Response st body).

Definition up : Host := constant_host 200 "<html></html>".
Definition down : Host := constant_host 404 "Not Found".

(** A site that serves the first ECE page and then answers [after]. *)
Definition first_page_then (after : reply) : Host :=
  site_host (fun url =>
               if (url =? "https://exams.engsoc.uwaterloo.ca/?tag=electrical-and-computer")%string
               then Response 200 "<html></html>"
               else after).

(** The first page is served, the site is gone afterwards. *)
Definition flaky : Host := first_page_then (Response 503 "Unavailable").

(** The first page is served, the later ones answer the JSON text
    [null]. *)
Definition turns_null : Host := first_page_then (Response 200 "null").

(** Comparison of strings by code units. *)
Definition compare_units (a b : string) : Z :=
  match String_as_OT.compare a b with
  | Lt => -1
  | Eq => 0
  | Gt => 1
  end.

Definition lower (c : ascii) : ascii :=
  let n := nat_of_ascii c in
  if (65 <=? n) && (n <=? 90) then ascii_of_nat (n + 32) else c.

Fixpoint lowercase (s : string) : string :=
  match s with
  | EmptyString => EmptyString
  | String c s' => String (lower c) (lowercase s')
  end.

Definition quoted (s : string) : string :=
  let q := String (ascii_of_nat 34) EmptyString in (q ++ s ++ q)%string.

(** The text of a one-line object with string members. *)
Fixpoint members (l : list (string * string)) : string :=
  match l with
  | [] => EmptyString
  | [(k, v)] => (quoted k ++ ":" ++ quoted v)%string
  | (k, v) :: l' => (quoted k ++ ":" ++ quoted v ++ "," ++ members l')%string
  end.

Definition object_text (l : list (string * string)) : string :=
  ("{" ++ members l ++ "}")%string.

Definition commit_a : list (string * string) :=
  [("repo_full_name", "uw/tools"); ("sha", "a1b2c3d");
   ("commit_author_date", "2024-01-02T10:00:00Z"); ("message", "Fix")]%string.

Definition commit_b : list (string * string) :=
  [("repo_full_name", "uw/site"); ("sha", "0f9e8d7");
   ("commit_author_date", "2024-03-01T08:30:00Z"); ("message", "Add")]%string.

Definition commit_c : list (string * string) :=
  [("repo_full_name", "uw/tools"); ("sha", "77aa88b");
   ("commit_author_date", "2024-02-11T23:15:00Z"); ("message", "Tidy")]%string.

Definition no_sha : list (string * string) :=
  [("repo_full_name", "uw/site"); ("message", "Lost")]%string.

Definition LF : string := String (ascii_of_nat 10) EmptyString.
Definition CRLF : string := String (ascii_of_nat 13) LF.

(** A file with three commits, a blank line, a line that is no JSON
    and an object without [sha]. *)
Definition out_jsonl : string :=
  (object_text commit_a ++ LF
   ++ "  " ++ CRLF
   ++ object_text commit_b ++ CRLF
   ++ "not json" ++ LF
   ++ object_text no_sha ++ LF
   ++ object_text commit_c ++ LF)%string.

(** A [JSON.parse] that knows the lines of [out_jsonl]. *)
Definition parse_known (s : string) : option (Viewer.json Z) :=
  let known := [commit_a; commit_b; commit_c; no_sha] in
  match find (fun l => (object_text l =? s)%string) known with
  | Some l =>
      Some (Viewer.JObject
              (map (fun kv => (fst kv, Viewer.JString (snd kv))) l))
  | None => None
  end.

Definition engine : Viewer.Engine := {|
  Viewer.number := Z;
  Viewer.Number_toString := fun z => NilEmpty.string_of_int (Z.to_int z);
  Viewer.Number_truthy := fun z => negb (z =? 0)%Z;
  Viewer.JSON_parse := parse_known;
  Viewer.toLowerCase := lowercase;
  Viewer.localeCompare := compare_units;
  Viewer.readFile_out_jsonl := Viewer.Ok out_jsonl
|}.

End Sample.

(** ** The three-category draft that came before [index.ts]

    Its [parseExams], [fetchPage], loop bodies and export are those of
    [index.ts] word for word; only the loop bounds differ. *)

Module ExamSaverDraft.
Import Cheerio Node.

Section Run.
Context `{Cheerio.API} `{Node.Host}.

Definition processPages : M unit :=
  let allExams := [] in
  allExams <- for_upto 78 (ExamSaver.page_step "ECE") allExams ;;
  allExams <- for_upto 19 (ExamSaver.page_step "Mathematics") allExams ;;
  allExams <- for_upto 5 (ExamSaver.page_step "Math") allExams ;;
  ExamSaver.export allExams.

Definition main : M unit := catch processPages console_error.
End Run.

(** The pages of a run, in the order of the three loops. *)
Definition schedule : list (string * nat) :=
  map (pair "ECE"%string) (seq 0 79)
  ++ map (pair "Mathematics"%string) (seq 0 20)
  ++ map (pair "Math"%string) (seq 0 6).

End ExamSaverDraft.

(** ** The loops of the scrapers as one pass over a list of pages *)

Module Pipeline.
Import Cheerio Node.

Section Steps.
Context `{Cheerio.API} `{Node.Host}.

(** The loop bodies of [processPages] run for the (category, page) pairs
    of [steps], one after the other. *)
Fixpoint run_steps (steps : list (string * nat))
         (allExams : list ExamSaver.Exam) : M (list ExamSaver.Exam) :=
  match steps with
  | [] => ret allExams
  | (category, page) :: rest =>
      bind (ExamSaver.page_step category page allExams) (run_steps rest)
  end.

(** The progress line and the request of one page. *)
Definition progress_line (step : string * nat) : event :=
  ConsoleLog ("Fetching " ++ fst step ++ " page "
              ++ JS.Number_toString (snd step) ++ "...").

Definition request (step : string * nat) : event :=
  HttpGet (ExamSaver.fetchPage_url (snd step) (fst step)) COOKIES.

(** The events of a run up to the start of page number [k] of [steps],
    when the pages before it were fetched and parsed without error. *)
Definition history (steps : list (string * nat)) (k : nat) : list event :=
  flat_map ExamSaver.page_events (firstn k steps).

(** What the site answers to the request of page number [k]. *)
Definition reply_at (steps : list (string * nat)) (k : nat)
           (step : string * nat) : reply :=
  http (history steps k ++ [progress_line step])
       (ExamSaver.fetchPage_url (snd step) (fst step)) COOKIES.

(** The workbook [export] writes for the records [allExams]. *)
Definition book_of (allExams : list ExamSaver.Exam) : Xlsx.workbook :=
  Xlsx.mkBook ["Exams"%string]
    [("Exams"%string, Xlsx.json_to_sheet (map ExamSaver.toObject allExams))].
End Steps.

End Pipeline.

(** ** The events of one page of the single-category scraper *)

Module EcePipeline.
Import Node.

Section Steps.
Context `{Node.Host}.

Definition progress_line (page : nat) : event :=
  ConsoleLog ("Fetching page " ++ JS.Number_toString page ++ "...").

Definition request (page : nat) : event :=
  HttpGet (EceScraper.fetchPage_url page) COOKIES.

(** What a page fetched and parsed without error leaves in the log of
    events. *)
Definition page_events (page : nat) : list event :=
  [progress_line page; request page; Timeout 1000].

(** The workbook [export] writes for the records [allExams]. *)
Definition book_of (allExams : list EceScraper.Exam) : Xlsx.workbook :=
  Xlsx.mkBook ["Exams"%string]
    [("Exams"%string, Xlsx.json_to_sheet (map EceScraper.toObject allExams))].
End Steps.

End EcePipeline.

(** ** app/CommitsClient.tsx: what the sections display *)

Module ClientView.
Import Viewer.

Definition LF : string := String (ascii_of_nat 10) EmptyString.

(** [firstLine]: [msg.indexOf("\n")], then [msg.slice(0, i)] unless the
    index is -1. *)
Definition firstLine (msg : string) : string :=
  match index 0 LF msg with
  | None => msg
  | Some i => substring 0 i msg
  end.

(** [list[0]?.commit_author_date ?? null] *)
Definition latest (list : list CommitRow) : option string :=
  match nth_error list 0 with
  | Some c => commit_author_date c
  | None => None
  end.

(** [list[list.length - 1]?.commit_author_date ?? null] *)
Definition oldest (list : list CommitRow) : option string :=
  match nth_error list (List.length list - 1) with
  | Some c => commit_author_date c
  | None => None
  end.

(** The number announced in a section header, [list.length], summed
    over the sections. *)
Definition listed (sections : list (string * list CommitRow)) : nat :=
  list_sum (map (fun section => List.length (snd section)) sections).

(** A parsed value that is neither an array nor an object. *)
Definition primitive {number : Type} (v : json number) : bool :=
  match v with
  | JArray _ | JObject _ => false
  | _ => true
  end.

(** The number of line feeds of a text. *)
Definition line_feeds (s : string) : nat :=
  List.length (filter is_LF (list_ascii_of_string s)).

End ClientView.

(** * Properties *)

(** ** Strings *)

Lemma prefix_app (sub rest : string) : prefix sub (sub ++ rest) = true.
Proof.
  induction sub as [|c sub IH]; simpl.
  - now destruct rest.
  - destruct (ascii_dec c c) as [_|ne]; [exact IH | now elim ne].
Qed.

Lemma includes_app (a sub b : string) :
  JS.includes (a ++ sub ++ b) sub = true.
Proof.
  induction a as [|c a IH].
  - simpl append. pose proof (prefix_app sub b) as P.
    destruct (sub ++ b)%string; cbn [JS.includes]; rewrite P; reflexivity.
  - change (String c a ++ sub ++ b)%string
      with (String c (a ++ sub ++ b)%string).
    cbn [JS.includes]. rewrite IH. apply orb_true_r.
Qed.

Lemma append_assoc (a b c : string) :
  ((a ++ b) ++ c = a ++ b ++ c)%string.
Proof. induction a; simpl; congruence. Qed.

Lemma includes_paged (a n : string) :
  JS.includes (a ++ "&paged=" ++ n) "paged" = true.
Proof.
  change ("&paged=" ++ n)%string with ("&" ++ "paged" ++ "=" ++ n)%string.
  rewrite <- append_assoc. apply includes_app.
Qed.

Lemma truthy_true (s : string) : JS.truthy s = true <-> s <> ""%string.
Proof.
  unfold JS.truthy. rewrite negb_true_iff. apply String.eqb_neq.
Qed.

Lemma truthy_false (s : string) : JS.truthy s = false <-> s = ""%string.
Proof.
  unfold JS.truthy. rewrite negb_false_iff. apply String.eqb_eq.
Qed.

(** The digits written for a page index read back as that index. *)
Lemma Number_toString_reads_back (n : nat) :
  option_map Nat.of_uint (NilZero.uint_of_string (JS.Number_toString n))
  = Some n.
Proof.
  unfold JS.Number_toString. rewrite NilZero.usu.
  - simpl. now rewrite DecimalNat.Unsigned.of_to.
  - rewrite <- (DecimalNat.Unsigned.of_to n) at 1.
    rewrite DecimalNat.Unsigned.to_of. apply DecimalFacts.unorm_nonnil.
Qed.

(** ** The request URL *)

Lemma tag_of_cases (category : string) :
  ExamSaver.tag_of category = "mathematics"%string
  \/ ExamSaver.tag_of category = "math"%string
  \/ ExamSaver.tag_of category = "electrical-and-computer"%string.
Proof.
  unfold ExamSaver.tag_of.
  destruct (category =? "Mathematics")%string; auto.
  destruct (category =? "Math")%string; auto.
Qed.

Lemma axios_get_events `{Node.Host} (url : string) (cookie : option string)
      (tr : list Node.event) :
  snd (Node.axios_get url cookie tr) = tr ++ [Node.HttpGet url cookie].
Proof.
  unfold Node.axios_get.
  destruct (Node.http tr url cookie) as [|st body]; [reflexivity|].
  destruct ((200 <=? st) && (st <? 300)); reflexivity.
Qed.

Lemma bind_ret_events {A B} (m : Node.M A) (f : A -> B) (tr : list Node.event) :
  snd ((x <- m ;; Node.ret (f x)) tr) = snd (m tr).
Proof.
  unfold Node.bind, Node.ret. now destruct (m tr) as [[a|e] tr'].
Qed.

(** C1. The URL [fetchPage] requests has no [paged] parameter exactly
    when the page index is 0: it is then the base URL with [?tag=] and
    the tag of the category; for an index of at least 1 it is that same
    URL followed by [&paged=] and the decimal digits of the index (digits
    that read back as the index). The same holds for the single-category
    scraper with its one tag, and the GET each [fetchPage] issues is for
    that URL. *)
Theorem fetchPage_url_paged `{Node.Host} (page : nat) (category : string) :
  let base := "https://exams.engsoc.uwaterloo.ca/"%string in
  let tagged := (base ++ "?tag=" ++ ExamSaver.tag_of category)%string in
  let ece := (base ++ "?tag=electrical-and-computer")%string in
  (JS.includes (ExamSaver.fetchPage_url page category) "paged" = false
   <-> page = 0)
  /\ ExamSaver.fetchPage_url 0 category = tagged
  /\ ExamSaver.fetchPage_url (S page) category
     = (tagged ++ "&paged=" ++ JS.Number_toString (S page))%string
  /\ (JS.includes (EceScraper.fetchPage_url page) "paged" = false
      <-> page = 0)
  /\ EceScraper.fetchPage_url 0 = ece
  /\ EceScraper.fetchPage_url (S page)
     = (ece ++ "&paged=" ++ JS.Number_toString (S page))%string
  /\ (forall tr,
         snd (ExamSaver.fetchPage page category tr)
         = tr ++ [Node.HttpGet (ExamSaver.fetchPage_url page category)
                               Node.COOKIES])
  /\ (forall tr,
         snd (EceScraper.fetchPage page tr)
         = tr ++ [Node.HttpGet (EceScraper.fetchPage_url page) Node.COOKIES])
  /\ option_map Nat.of_uint
       (NilZero.uint_of_string (JS.Number_toString (S page)))
     = Some (S page).
Proof.
  cbv zeta.
  assert (E1 : forall n,
             ExamSaver.fetchPage_url (S n) category
             = (("https://exams.engsoc.uwaterloo.ca/" ++ "?tag="
                 ++ ExamSaver.tag_of category)
                ++ "&paged=" ++ JS.Number_toString (S n))%string).
  { intros n. unfold ExamSaver.fetchPage_url. simpl Nat.eqb. cbv iota zeta.
    rewrite !append_assoc. reflexivity. }
  assert (E2 : forall n,
             EceScraper.fetchPage_url (S n)
             = (("https://exams.engsoc.uwaterloo.ca/"
                 ++ "?tag=electrical-and-computer")
                ++ "&paged=" ++ JS.Number_toString (S n))%string)
    by reflexivity.
  refine (conj _ (conj _ (conj _ (conj _ (conj _ (conj _
            (conj _ (conj _ _)))))))).
  - split.
    + destruct page as [|n]; [reflexivity|].
      rewrite E1, includes_paged. discriminate.
    + intros ->. unfold ExamSaver.fetchPage_url. simpl Nat.eqb.
      cbv iota zeta.
      destruct (tag_of_cases category) as [-> | [-> | ->]]; reflexivity.
  - reflexivity.
  - apply E1.
  - split.
    + destruct page as [|n]; [reflexivity|].
      rewrite E2, includes_paged. discriminate.
    + intros ->. reflexivity.
  - reflexivity.
  - apply E2.
  - intros tr. unfold ExamSaver.fetchPage.
    rewrite bind_ret_events. apply axios_get_events.
  - intros tr. unfold EceScraper.fetchPage.
    rewrite bind_ret_events. apply axios_get_events.
  - apply Number_toString_reads_back.
Qed.

(** C10. A category other than ["Mathematics"] and ["Math"], known or
    not, is given the tag ["electrical-and-computer"]: [fetchPage] then
    does exactly what it does for ["ECE"], with no error of its own. *)
Theorem fetchPage_default_tag `{Node.Host} (page : nat) (category : string)
        (not_mathematics : category <> "Mathematics"%string)
        (not_math : category <> "Math"%string) :
  ExamSaver.tag_of category = "electrical-and-computer"%string
  /\ ExamSaver.fetchPage_url page category
     = (if (page =? 0)%nat
        then "https://exams.engsoc.uwaterloo.ca/?tag=electrical-and-computer"
        else "https://exams.engsoc.uwaterloo.ca/?tag=electrical-and-computer&paged="
             ++ JS.Number_toString page)%string
  /\ ExamSaver.fetchPage page category = ExamSaver.fetchPage page "ECE".
Proof.
  assert (T : ExamSaver.tag_of category = "electrical-and-computer"%string).
  { unfold ExamSaver.tag_of.
    apply String.eqb_neq in not_mathematics, not_math.
    now rewrite not_mathematics, not_math. }
  assert (U : ExamSaver.fetchPage_url page category
              = ExamSaver.fetchPage_url page "ECE").
  { unfold ExamSaver.fetchPage_url. now rewrite T. }
  refine (conj T (conj _ _)).
  - rewrite U. unfold ExamSaver.fetchPage_url.
    destruct (page =? 0); reflexivity.
  - unfold ExamSaver.fetchPage. now rewrite U.
Qed.

Lemma fetchPage_default_tag_witness :
  ExamSaver.tag_of "Physics" = "electrical-and-computer"%string
  /\ ExamSaver.fetchPage_url 3 ""
     = "https://exams.engsoc.uwaterloo.ca/?tag=electrical-and-computer&paged=3"%string.
Proof.
  split.
  - apply (@fetchPage_default_tag Sample.up 0 "Physics");
      intros E; discriminate E.
  - apply (@fetchPage_default_tag Sample.up 3 "");
      intros E; discriminate E.
Defined.

(** ** The listing parser *)

Section Parser.
Context `{Cheerio.API}.
Import Cheerio.

(** A record of the three-category scraper stands for a block. *)
Let made_from (doc : cheerio_doc) (category : string)
    (el : element) (e : ExamSaver.Exam) : Prop :=
  ExamSaver.title e = block_title doc el
  /\ ExamSaver.category e = category
  /\ exists link, block_link doc el = Some link
                  /\ ExamSaver.url e
                     = ("https://exams.engsoc.uwaterloo.ca/" ++ link)%string.

Let made_from_ece (doc : cheerio_doc)
    (el : element) (e : EceScraper.Exam) : Prop :=
  EceScraper.title e = block_title doc el
  /\ exists link, block_link doc el = Some link
                  /\ EceScraper.url e
                     = ("https://exams.engsoc.uwaterloo.ca/?tag=electrical-and-computer/"
                        ++ link)%string.

Lemma Forall2_map_eq {A B C} (R : A -> B -> Prop) (f : B -> C) (g : A -> C)
      (l : list A) (l' : list B) :
  (forall x y, R x y -> f y = g x) -> Forall2 R l l' -> map f l' = map g l.
Proof.
  intros Rfg F. induction F as [|x y l l' Rxy _ IH]; simpl.
  - reflexivity.
  - now rewrite (Rfg _ _ Rxy), IH.
Qed.

Lemma filter_snoc {A} (f : A -> bool) (l : list A) (x : A) :
  filter f (l ++ [x]) = filter f l ++ (if f x then [x] else []).
Proof. now rewrite filter_app. Qed.

Lemma parseExams_each_cases (doc : cheerio_doc) (category : string)
      (exams : list ExamSaver.Exam) (el : element) :
  (has_both doc el = true
   /\ exists e, made_from doc category el e
                /\ ExamSaver.parseExams_each doc category exams el
                   = exams ++ [e])
  \/ (has_both doc el = false
      /\ ExamSaver.parseExams_each doc category exams el = exams).
Proof.
  unfold ExamSaver.parseExams_each, has_both, made_from.
  fold (block_title doc el). fold (block_link doc el).
  destruct (JS.truthy (block_title doc el)); [|now right].
  destruct (block_link doc el) as [link|]; [|now right].
  simpl. destruct (JS.truthy link); [|now right].
  left. split; [reflexivity|].
  eexists. split; [|reflexivity]. simpl. eauto.
Qed.

Lemma parseExams_each_ece_cases (doc : cheerio_doc)
      (exams : list EceScraper.Exam) (el : element) :
  (has_both doc el = true
   /\ exists e, made_from_ece doc el e
                /\ EceScraper.parseExams_each doc exams el = exams ++ [e])
  \/ (has_both doc el = false
      /\ EceScraper.parseExams_each doc exams el = exams).
Proof.
  unfold EceScraper.parseExams_each, has_both, made_from_ece.
  fold (block_title doc el). fold (block_link doc el).
  destruct (JS.truthy (block_title doc el)); [|now right].
  destruct (block_link doc el) as [link|]; [|now right].
  simpl. destruct (JS.truthy link); [|now right].
  left. split; [reflexivity|].
  eexists. split; [|reflexivity]. simpl. eauto.
Qed.

(** The loop invariant of [.each]: the array holds, in order, one
    record for each complete block met so far. *)
Lemma parseExams_loop (doc : cheerio_doc) (category : string)
      (todo done : list element) (exams : list ExamSaver.Exam) :
  Forall2 (made_from doc category) (filter (has_both doc) done) exams ->
  Forall2 (made_from doc category)
          (filter (has_both doc) (done ++ todo))
          (fold_left (ExamSaver.parseExams_each doc category) todo exams).
Proof.
  revert done exams.
  induction todo as [|el todo IH]; intros done exams Inv.
  - now rewrite List.app_nil_r.
  - simpl fold_left.
    replace (done ++ el :: todo) with ((done ++ [el]) ++ todo)
      by now rewrite <- List.app_assoc.
    apply IH. rewrite filter_snoc.
    destruct (parseExams_each_cases doc category exams el)
      as [(-> & e & Made & ->) | (-> & ->)].
    + apply Forall2_app; auto.
    + now rewrite List.app_nil_r.
Qed.

Lemma parseExams_loop_ece (doc : cheerio_doc)
      (todo done : list element) (exams : list EceScraper.Exam) :
  Forall2 (made_from_ece doc) (filter (has_both doc) done) exams ->
  Forall2 (made_from_ece doc)
          (filter (has_both doc) (done ++ todo))
          (fold_left (EceScraper.parseExams_each doc) todo exams).
Proof.
  revert done exams.
  induction todo as [|el todo IH]; intros done exams Inv.
  - now rewrite List.app_nil_r.
  - simpl fold_left.
    replace (done ++ el :: todo) with ((done ++ [el]) ++ todo)
      by now rewrite <- List.app_assoc.
    apply IH. rewrite filter_snoc.
    destruct (parseExams_each_ece_cases doc exams el)
      as [(-> & e & Made & ->) | (-> & ->)].
    + apply Forall2_app; auto.
    + now rewrite List.app_nil_r.
Qed.

Lemma parseExams_blocks (html category : string) :
  Forall2 (made_from (load html) category)
          (filter (has_both (load html)) (blocks (load html)))
          (ExamSaver.parseExams html category).
Proof.
  unfold ExamSaver.parseExams, blocks. cbv zeta.
  apply (parseExams_loop (load html) category _ [] []). constructor.
Qed.

Lemma parseExams_blocks_ece (html : string) :
  Forall2 (made_from_ece (load html))
          (filter (has_both (load html)) (blocks (load html)))
          (EceScraper.parseExams html).
Proof.
  unfold EceScraper.parseExams, blocks. cbv zeta.
  apply (parseExams_loop_ece (load html) _ [] []). constructor.
Qed.

(** C2. [parseExams] returns one record per listing block that has a
    non-empty trimmed title and a non-empty link, in document order,
    and nothing for the other blocks: of the N blocks of the page, the
    M complete ones give a result of length M. Both scrapers. *)
Theorem parseExams_length (html category : string) :
  let doc := load html in
  let complete := filter (has_both doc) (blocks doc) in
  List.length (ExamSaver.parseExams html category) = List.length complete
  /\ List.length (EceScraper.parseExams html) = List.length complete
  /\ map ExamSaver.title (ExamSaver.parseExams html category)
     = map (block_title doc) complete
  /\ map EceScraper.title (EceScraper.parseExams html)
     = map (block_title doc) complete
  /\ List.length complete <= List.length (blocks doc).
Proof.
  cbv zeta.
  pose proof (parseExams_blocks html category) as P.
  pose proof (parseExams_blocks_ece html) as Q.
  refine (conj _ (conj _ (conj _ (conj _ _)))).
  - symmetry. exact (Forall2_length P).
  - symmetry. exact (Forall2_length Q).
  - apply (Forall2_map_eq _ _ _ _ _ (fun el e M => proj1 M) P).
  - apply (Forall2_map_eq _ _ _ _ _ (fun el e M => proj1 M) Q).
  - apply filter_length_le.
Qed.

(** C4. The [url] of every record is the fixed base path followed by
    the link attribute exactly as extracted from its block. *)
Theorem parseExams_url (html category : string) :
  let doc := load html in
  let complete := filter (has_both doc) (blocks doc) in
  Forall2 (fun el e =>
             exists link,
               block_link doc el = Some link
               /\ ExamSaver.url e
                  = ("https://exams.engsoc.uwaterloo.ca/" ++ link)%string)
          complete (ExamSaver.parseExams html category)
  /\ Forall2 (fun el e =>
                exists link,
                  block_link doc el = Some link
                  /\ EceScraper.url e
                     = ("https://exams.engsoc.uwaterloo.ca/?tag=electrical-and-computer/"
                        ++ link)%string)
             complete (EceScraper.parseExams html).
Proof.
  cbv zeta. split.
  - eapply Forall2_impl; [|apply parseExams_blocks].
    intros el e (_ & _ & L). exact L.
  - eapply Forall2_impl; [|apply parseExams_blocks_ece].
    intros el e (_ & L). exact L.
Qed.

(** C7. A page with exactly two listing blocks, one titled
    ["Final 2020"] with link ["/papers/f20.pdf"] and one with an empty
    title, parses to the single record of the first block, under the
    category given. *)
Theorem parseExams_two_blocks (html category : string) (b1 b2 : element)
        (two : Permutation [b1; b2] (blocks (load html)))
        (title1 : block_title (load html) b1 = "Final 2020"%string)
        (link1 : block_link (load html) b1 = Some "/papers/f20.pdf"%string)
        (title2 : block_title (load html) b2 = ""%string) :
  ExamSaver.parseExams html category
  = [ExamSaver.mkExam "Final 2020"
       ("https://exams.engsoc.uwaterloo.ca/" ++ "/papers/f20.pdf")
       category].
Proof.
  assert (E1 : forall exams,
             ExamSaver.parseExams_each (load html) category exams b1
             = exams ++ [ExamSaver.mkExam "Final 2020"
                           ("https://exams.engsoc.uwaterloo.ca/"
                            ++ "/papers/f20.pdf") category]).
  { intros exams. unfold ExamSaver.parseExams_each.
    fold (block_title (load html) b1). fold (block_link (load html) b1).
    rewrite title1, link1. reflexivity. }
  assert (E2 : forall exams,
             ExamSaver.parseExams_each (load html) category exams b2
             = exams).
  { intros exams. unfold ExamSaver.parseExams_each.
    fold (block_title (load html) b2). rewrite title2. reflexivity. }
  unfold ExamSaver.parseExams. cbv zeta. fold (blocks (load html)).
  apply Permutation_length_2_inv in two.
  destruct two as [-> | ->]; simpl fold_left; now rewrite ?E1, ?E2, ?E1.
Qed.
End Parser.

Lemma parseExams_two_blocks_witness :
  @ExamSaver.parseExams Sample.two_blocks_cheerio "<html>...</html>" "Math"
  = [ExamSaver.mkExam "Final 2020"
       "https://exams.engsoc.uwaterloo.ca//papers/f20.pdf" "Math"].
Proof.
  refine (@parseExams_two_blocks Sample.two_blocks_cheerio
            "<html>...</html>" "Math"
            Sample.complete_block Sample.untitled_block _ _ _ _).
  - vm_compute. apply Permutation_refl.
  - reflexivity.
  - reflexivity.
  - reflexivity.
Defined.

(** ** The orchestrator *)

Lemma bind_normal {A B} (m : Node.M A) (k : A -> Node.M B)
      (tr tr' : list Node.event) (a : A) :
  m tr = (Node.Normal a, tr') -> Node.bind m k tr = k a tr'.
Proof. unfold Node.bind. now intros ->. Qed.

Lemma bind_throw {A B} (m : Node.M A) (k : A -> Node.M B)
      (tr tr' : list Node.event) (e : Node.error) :
  m tr = (Node.Throw e, tr') -> Node.bind m k tr = (Node.Throw e, tr').
Proof. unfold Node.bind. now intros ->. Qed.

Lemma bind_congr {A B} (m m' : Node.M A) (k k' : A -> Node.M B)
      (tr : list Node.event) :
  (forall tr, m tr = m' tr) -> (forall a tr, k a tr = k' a tr) ->
  Node.bind m k tr = Node.bind m' k' tr.
Proof.
  intros Hm Hk. unfold Node.bind. rewrite Hm.
  destruct (m' tr) as [[a|e] tr']; [apply Hk | reflexivity].
Qed.

Lemma axios_get_cases `{Node.Host} (url : string) (cookie : option string)
      (tr : list Node.event) :
  match Node.rejection (Node.http tr url cookie) with
  | None => exists response,
      Node.axios_get url cookie tr
      = (Node.Normal response, tr ++ [Node.HttpGet url cookie])
  | Some e =>
      Node.axios_get url cookie tr
      = (Node.Throw e, tr ++ [Node.HttpGet url cookie])
  end.
Proof.
  unfold Node.axios_get, Node.rejection.
  destruct (Node.http tr url cookie) as [|st body]; [reflexivity|].
  destruct ((200 <=? st) && (st <? 300)); [eexists|]; reflexivity.
Qed.

(** A request axios rejects ends the step of its page with that
    rejection. *)
Lemma rejection_page_error `{Node.Host} (r : Node.reply) (e : Node.error) :
  Node.rejection r = Some e -> Node.page_error r = Some e.
Proof.
  unfold Node.rejection, Node.page_error.
  destruct r as [|st body]; [easy|].
  now destruct ((200 <=? st) && (st <? 300)).
Qed.

Section Orchestrator.
Context `{Cheerio.API} `{Node.Host}.
Import Node Pipeline.

Lemma parse_page_cases (html : json_data) (category : string)
      (tr : list event) :
  match parse_error html with
  | None => exists exams,
      ExamSaver.parse_page html category tr = (Normal exams, tr)
  | Some e => ExamSaver.parse_page html category tr = (Throw e, tr)
  end.
Proof.
  unfold parse_error, ExamSaver.parse_page.
  destruct html as [html| | | |text]; try reflexivity.
  - eexists. reflexivity.
  - destruct (load_compound text) as [msg|pushed]; [reflexivity|].
    eexists. reflexivity.
Qed.

Lemma fetchPage_cases (page : nat) (category : string) (tr : list event) :
  ExamSaver.fetchPage page category tr
  = (match http tr (ExamSaver.fetchPage_url page category) COOKIES with
     | NoResponse => Throw NetworkError
     | Response st body =>
         if (200 <=? st) && (st <? 300)
         then Normal (transformResponse body)
         else Throw (BadStatus st)
     end,
     tr ++ [HttpGet (ExamSaver.fetchPage_url page category) COOKIES]).
Proof.
  unfold ExamSaver.fetchPage, axios_get, bind, ret.
  destruct (http _ _ _) as [|st body]; [reflexivity|].
  now destruct ((200 <=? st) && (st <? 300)).
Qed.

(** One page: either it is fetched and parsed and leaves its three
    events, or the step ends right after the request, with the
    rejection of axios or the exception of the parse. *)
Lemma page_step_cases (category : string) (page : nat)
      (allExams : list ExamSaver.Exam) (tr : list event) :
  match page_error (http (tr ++ [progress_line (category, page)])
                         (ExamSaver.fetchPage_url page category) COOKIES) with
  | None => exists allExams',
      ExamSaver.page_step category page allExams tr
      = (Normal allExams', tr ++ ExamSaver.page_events (category, page))
  | Some e =>
      ExamSaver.page_step category page allExams tr
      = (Throw e,
         tr ++ [progress_line (category, page); request (category, page)])
  end.
Proof.
  unfold progress_line, request. cbn [fst snd].
  set (line := ConsoleLog _).
  set (url := ExamSaver.fetchPage_url page category).
  assert (Log : forall B (k : M B),
             bind (console_log ("Fetching " ++ category ++ " page "
                                ++ JS.Number_toString page ++ "...")) (fun _ => k) tr
             = k (tr ++ [line])) by reflexivity.
  unfold ExamSaver.page_step. rewrite Log.
  pose proof (fetchPage_cases page category (tr ++ [line])) as F.
  fold url in F. unfold page_error.
  replace ((tr ++ [line]) ++ [HttpGet url COOKIES])
    with (tr ++ [line; HttpGet url COOKIES]) in F
    by now rewrite <- List.app_assoc.
  destruct (http (tr ++ [line]) url COOKIES) as [|st body].
  - now apply bind_throw.
  - destruct ((200 <=? st) && (st <? 300)); [|now apply bind_throw].
    rewrite (bind_normal _ _ _ _ _ F).
    pose proof (parse_page_cases (transformResponse body) category
                  (tr ++ [line; HttpGet url COOKIES])) as P.
    destruct (parse_error (transformResponse body)) as [e|].
    + now apply bind_throw.
    + destruct P as [exams P]. rewrite (bind_normal _ _ _ _ _ P).
      eexists. unfold ExamSaver.delay, setTimeout, emit, bind, ret.
      unfold ExamSaver.page_events. fold line url.
      now rewrite <- !List.app_assoc.
Qed.

(** The export step never throws and adds the write of [exams.xlsx]
    and the closing line. *)
Lemma export_events (allExams : list ExamSaver.Exam) (tr : list event) :
  ExamSaver.export allExams tr
  = (Normal tt, tr ++ [WriteFile "exams.xlsx" (book_of allExams);
                       ConsoleLog "Exams saved to exams.xlsx"]).
Proof.
  unfold ExamSaver.export, book_of. cbn.
  unfold writeFile, console_log, emit, bind.
  rewrite <- List.app_assoc. reflexivity.
Qed.

Lemma iterate_run_steps (category : string) (n page : nat)
      (allExams : list ExamSaver.Exam) (tr : list event) :
  iterate n page (ExamSaver.page_step category) allExams tr
  = run_steps (map (pair category) (seq page n)) allExams tr.
Proof.
  revert page allExams tr. induction n as [|n IH]; intros page allExams tr.
  - reflexivity.
  - cbn [iterate seq map run_steps]. unfold bind.
    destruct (ExamSaver.page_step category page allExams tr) as [[a|e] tr'];
      [apply IH | reflexivity].
Qed.

Lemma run_steps_app (l1 l2 : list (string * nat))
      (allExams : list ExamSaver.Exam) (tr : list event) :
  run_steps (l1 ++ l2) allExams tr
  = bind (run_steps l1 allExams) (run_steps l2) tr.
Proof.
  revert allExams tr.
  induction l1 as [|[category page] l1 IH]; intros allExams tr.
  - reflexivity.
  - cbn [List.app run_steps]. unfold bind.
    destruct (ExamSaver.page_step category page allExams tr) as [[a|e] tr'];
      [|reflexivity].
    rewrite IH. reflexivity.
Qed.

Lemma bind_ext_steps {B} (l1 l2 : list (string * nat))
      (allExams : list ExamSaver.Exam) (k : list ExamSaver.Exam -> M B)
      (tr : list event) :
  bind (run_steps (l1 ++ l2) allExams) k tr
  = bind (run_steps l1 allExams) (fun a => bind (run_steps l2 a) k) tr.
Proof.
  unfold bind at 1 2. rewrite run_steps_app. unfold bind at 1.
  now destruct (run_steps l1 allExams tr) as [[a|e] tr'].
Qed.

(** [processPages] is the pass over the schedule, then the export. *)
Lemma processPages_run_steps (tr : list event) :
  ExamSaver.processPages tr
  = bind (run_steps ExamSaver.schedule []) ExamSaver.export tr.
Proof.
  unfold ExamSaver.processPages, ExamSaver.schedule, for_upto.
  cbv zeta. rewrite bind_ext_steps.
  apply bind_congr; [intros; apply iterate_run_steps|]. clear tr.
  intros a1 tr. rewrite bind_ext_steps.
  apply bind_congr; [intros; apply iterate_run_steps|]. clear tr.
  intros a2 tr.
  apply bind_congr; [intros; apply iterate_run_steps | reflexivity].
Qed.

(** The reply to page number [i] of [steps] in a pass started after the
    events [tr]. *)
Let reply_from (tr : list event) (steps : list (string * nat)) (i : nat)
    (step : string * nat) : reply :=
  http (tr ++ history steps i ++ [progress_line step])
       (ExamSaver.fetchPage_url (snd step) (fst step)) COOKIES.

Lemma reply_from_shift (tr : list event) (s : string * nat)
      (rest : list (string * nat)) (j : nat) (step : string * nat) :
  reply_from (tr ++ ExamSaver.page_events s) rest j step
  = reply_from tr (s :: rest) (S j) step.
Proof.
  unfold reply_from, history. cbn [firstn flat_map].
  now rewrite <- !List.app_assoc.
Qed.

(** A pass either completes every page, or stops at the first page
    whose step ends with an error, right after the request of that
    page. *)
Lemma run_steps_cases (steps : list (string * nat))
      (allExams : list ExamSaver.Exam) (tr : list event) :
  (exists allExams',
      run_steps steps allExams tr
      = (Normal allExams', tr ++ flat_map ExamSaver.page_events steps)
      /\ forall i step, nth_error steps i = Some step ->
                        page_error (reply_from tr steps i step) = None)
  \/ (exists k step e,
         nth_error steps k = Some step
         /\ (forall i s, i < k -> nth_error steps i = Some s ->
                         page_error (reply_from tr steps i s) = None)
         /\ page_error (reply_from tr steps k step) = Some e
         /\ run_steps steps allExams tr
            = (Throw e,
               tr ++ history steps k ++ [progress_line step; request step])).
Proof.
  revert allExams tr.
  induction steps as [|[category page] rest IH]; intros allExams tr.
  - left. exists allExams. split.
    + cbn. now rewrite List.app_nil_r.
    + intros [|i] step; discriminate.
  - pose proof (page_step_cases category page allExams tr) as St.
    destruct (page_error _) as [e|] eqn:R.
    + right. exists 0, (category, page), e.
      split; [reflexivity|]. split; [intros i s Hi; inversion Hi|].
      split; [exact R|].
      cbn [run_steps]. rewrite (bind_throw _ _ _ _ _ St). reflexivity.
    + destruct St as [a1 St].
      cbn [run_steps]. rewrite (bind_normal _ _ _ _ _ St).
      destruct (IH a1 (tr ++ ExamSaver.page_events (category, page)))
        as [(a2 & E & Served) | (k & step & e & Nth & Before & Rej & E)].
      * left. exists a2. split.
        -- rewrite E. cbn [flat_map]. now rewrite <- List.app_assoc.
        -- intros [|i] step Nth.
           ++ injection Nth as <-. exact R.
           ++ rewrite <- reply_from_shift. now apply Served.
      * right. exists (S k), step, e.
        split; [exact Nth|]. split; [|split].
        -- intros [|i] s Hi Nth'.
           ++ injection Nth' as <-. exact R.
           ++ rewrite <- reply_from_shift. apply Before; [lia | exact Nth'].
        -- now rewrite <- reply_from_shift.
        -- rewrite E. unfold history. cbn [firstn flat_map].
           now rewrite <- !List.app_assoc.
Qed.

(** The first page whose step ends with an error decides the pass. *)
Lemma run_steps_aborts (steps : list (string * nat)) (k : nat)
      (step : string * nat) (e : error) :
  nth_error steps k = Some step ->
  (forall i s, i < k -> nth_error steps i = Some s ->
               page_error (reply_at steps i s) = None) ->
  page_error (reply_at steps k step) = Some e ->
  run_steps steps [] []
  = (Throw e, history steps k ++ [progress_line step; request step]).
Proof.
  intros scheduled before failed.
  destruct (run_steps_cases steps [] [])
    as [(all & _ & Served) | (k' & step' & e' & Nth & Before & Rej & E)].
  - specialize (Served k step scheduled).
    change (page_error (reply_at steps k step) = None) in Served.
    congruence.
  - assert (k' = k) as ->.
    { destruct (Nat.lt_trichotomy k' k) as [Lt | [Eq | Gt]];
        [exfalso | exact Eq | exfalso].
      - specialize (before k' step' Lt Nth).
        change (page_error (reply_at steps k' step') = Some e') in Rej.
        congruence.
      - specialize (Before k step Gt scheduled).
        change (page_error (reply_at steps k step) = None) in Before.
        congruence. }
    assert (step' = step) as -> by congruence.
    change (page_error (reply_at steps k step) = Some e') in Rej.
    assert (e' = e) as -> by congruence.
    exact E.
Qed.


Lemma page_events_count (l : list (string * nat)) (tl : list event) :
  List.length (filter is_get (flat_map ExamSaver.page_events l ++ tl))
  = List.length l + List.length (filter is_get tl)
  /\ List.length (filter is_pause (flat_map ExamSaver.page_events l ++ tl))
     = List.length l + List.length (filter is_pause tl).
Proof.
  induction l as [|[category page] l [IHg IHp]]; [now split|].
  cbn [flat_map ExamSaver.page_events List.app filter is_get is_pause
       List.length].
  rewrite IHg, IHp. split; reflexivity.
Qed.

Lemma history_quiet (steps : list (string * nat)) (k : nat) :
  Forall (fun ev => is_write ev = false) (history steps k).
Proof.
  unfold history.
  induction (firstn k steps) as [|[category page] l IH]; [constructor|].
  cbn [flat_map ExamSaver.page_events List.app].
  repeat constructor. exact IH.
Qed.



(** A run never leaves a rejection unhandled. *)
Lemma main_exit_status : exit_status (run ExamSaver.main) = 0%Z.
Proof.
  unfold run, ExamSaver.main, catch.
  destruct (ExamSaver.processPages []) as [[[]|e] tr]; reflexivity.
Qed.

(** A failed request makes [fetchPage] throw: nothing in it catches
    the rejection of axios. *)
Lemma fetchPage_throws (page : nat) (category : string)
      (tr : list event) (e : error) :
  rejection (http tr (ExamSaver.fetchPage_url page category) COOKIES)
  = Some e ->
  ExamSaver.fetchPage page category tr
  = (Throw e,
     tr ++ [HttpGet (ExamSaver.fetchPage_url page category) COOKIES]).
Proof.
  intros R. unfold ExamSaver.fetchPage.
  pose proof (axios_get_cases (ExamSaver.fetchPage_url page category)
                COOKIES tr) as G.
  rewrite R in G. now apply bind_throw.
Qed.

(** What a run leaves when the pass stops at page [k] with [e]. *)
Lemma main_aborted (k : nat) (step : string * nat) (e : error) :
  run_steps ExamSaver.schedule [] []
  = (Throw e,
     history ExamSaver.schedule k ++ [progress_line step; request step]) ->
  ExamSaver.processPages []
  = (Throw e,
     history ExamSaver.schedule k ++ [progress_line step; request step])
  /\ run ExamSaver.main
     = mkOutcome
         (history ExamSaver.schedule k
          ++ [progress_line step; request step; ConsoleError e])
         0
  /\ Forall (fun ev => is_write ev = false) (events (run ExamSaver.main)).
Proof.
  intros E.
  assert (P : ExamSaver.processPages []
              = (Throw e,
                 history ExamSaver.schedule k
                 ++ [progress_line step; request step])).
  { rewrite processPages_run_steps. now apply bind_throw. }
  assert (R : run ExamSaver.main
              = mkOutcome
                  (history ExamSaver.schedule k
                   ++ [progress_line step; request step; ConsoleError e])
                  0).
  { unfold run, ExamSaver.main, catch. rewrite P.
    unfold console_error, emit. cbn [exit_code].
    now rewrite <- List.app_assoc. }
  split; [exact P|]. split; [exact R|].
  rewrite R. cbn [events]. apply Forall_app.
  split; [apply history_quiet | repeat constructor].
Qed.

(** C6, as the code has it. A network failure or a status outside
    200..299 is caught nowhere in [fetchPage], [parseExams] or
    [processPages]: when the pages before page number [k] of the
    schedule are fetched and parsed and the request of page [k] is
    rejected by axios with [e], [processPages] is rejected with [e]
    right after that request, the top-level [catch] logs [e] with
    [console.error], and no file is written. As the rejection has been
    handled and no exit code is set, the exit status is 0. *)
Theorem processPages_failure (k : nat) (step : string * nat) (e : error)
        (scheduled : nth_error ExamSaver.schedule k = Some step)
        (fetched_before :
           forall i s, i < k -> nth_error ExamSaver.schedule i = Some s ->
                       page_error (reply_at ExamSaver.schedule i s) = None)
        (rejected : rejection (reply_at ExamSaver.schedule k step) = Some e) :
  ExamSaver.processPages []
  = (Throw e,
     history ExamSaver.schedule k ++ [progress_line step; request step])
  /\ run ExamSaver.main
     = mkOutcome
         (history ExamSaver.schedule k
          ++ [progress_line step; request step; ConsoleError e])
         0
  /\ Forall (fun ev => is_write ev = false) (events (run ExamSaver.main)).
Proof.
  apply main_aborted.
  apply run_steps_aborts; [exact scheduled | exact fetched_before |].
  now apply rejection_page_error.
Qed.
End Orchestrator.


Lemma processPages_failure_witness :
  Node.run (@ExamSaver.main Sample.two_blocks_cheerio Sample.flaky)
  = Node.mkOutcome
      [Node.ConsoleLog "Fetching ECE page 0...";
       Node.HttpGet
         "https://exams.engsoc.uwaterloo.ca/?tag=electrical-and-computer"
         (Some "session=1"%string);
       Node.Timeout 1000;
       Node.ConsoleLog "Fetching ECE page 1...";
       Node.HttpGet
         "https://exams.engsoc.uwaterloo.ca/?tag=electrical-and-computer&paged=1"
         (Some "session=1"%string);
       Node.ConsoleError (Node.BadStatus 503)]
      0.
Proof.
  refine (proj1 (proj2 (@processPages_failure Sample.two_blocks_cheerio
                          Sample.flaky 1 ("ECE"%string, 1)
                          (Node.BadStatus 503) _ _ _))).
  - reflexivity.
  - intros [|i] s Hi Nth; [|lia]. injection Nth as <-. reflexivity.
  - reflexivity.
Defined.

(** C6, as stated, fails on a run against a site that answers 404: the
    error is logged by the top-level [catch], and the exit status is not
    different from 0. *)
Lemma failed_run_exit_status :
  let o := Node.run (@ExamSaver.main Sample.two_blocks_cheerio Sample.down) in
  In (Node.ConsoleError (Node.BadStatus 404)) (Node.events o)
  /\ ~ (Node.exit_status o <> 0%Z).
Proof.
  cbv zeta. split.
  - vm_compute. right. right. left. reflexivity.
  - intros nonzero. apply nonzero. reflexivity.
Qed.

(** ** The export *)

Lemma address_eqb_eq (a b : Xlsx.address) :
  Xlsx.address_eqb a b = true <-> a = b.
Proof.
  destruct a as [c r], b as [c' r']. unfold Xlsx.address_eqb. cbn [fst snd].
  rewrite andb_true_iff, !Z.eqb_eq. split.
  - now intros [-> ->].
  - now intros [= -> ->].
Qed.

Lemma get_set_same (a : Xlsx.address) (v : string)
      (cs : list (Xlsx.address * string)) :
  Xlsx.get_cell a (Xlsx.set_cell a v cs) = Some v.
Proof.
  assert (Ra : Xlsx.address_eqb a a = true) by now apply address_eqb_eq.
  induction cs as [|[b w] cs IH]; cbn.
  - now rewrite Ra.
  - destruct (Xlsx.address_eqb a b) eqn:E; cbn.
    + now rewrite Ra.
    + now rewrite E.
Qed.

Lemma get_set_other (a b : Xlsx.address) (v : string)
      (cs : list (Xlsx.address * string)) :
  a <> b -> Xlsx.get_cell b (Xlsx.set_cell a v cs) = Xlsx.get_cell b cs.
Proof.
  intros ne.
  assert (Rab : Xlsx.address_eqb b a = false).
  { destruct (Xlsx.address_eqb b a) eqn:E; [|reflexivity].
    apply address_eqb_eq in E. now elim ne. }
  induction cs as [|[c w] cs IH]; cbn.
  - now rewrite Rab.
  - destruct (Xlsx.address_eqb a c) eqn:E; cbn.
    + apply address_eqb_eq in E. subst c. now rewrite Rab.
    + now rewrite IH.
Qed.

(** Once the three field names are in the header, further records add
    none. *)
Lemma add_rows_header (es : list ExamSaver.Exam) (R : nat)
      (cs : list (Xlsx.address * string)) :
  fst (Xlsx.add_rows R (map ExamSaver.toObject es)
         (["title"; "url"; "category"]%string, cs))
  = ["title"; "url"; "category"]%string.
Proof.
  revert R cs. induction es as [|e es IH]; intros R cs; [reflexivity|].
  cbn [map Xlsx.add_rows]. cbn [ExamSaver.toObject fold_left Xlsx.add_key].
  cbn. apply IH.
Qed.

(** With at least one record the first row of the sheet holds the field
    names. *)
Lemma json_to_sheet_header (e : ExamSaver.Exam) (es : list ExamSaver.Exam) :
  Xlsx.row_cells (Xlsx.json_to_sheet (map ExamSaver.toObject (e :: es))) 0
  = [Some "title"; Some "url"; Some "category"]%string.
Proof.
  unfold Xlsx.json_to_sheet. cbn [map Xlsx.add_rows].
  cbn [ExamSaver.toObject fold_left Xlsx.add_key]. cbn.
  pose proof (add_rows_header es 1
                [(0%Z, 1%Z, ExamSaver.title e); (1%Z, 1%Z, ExamSaver.url e);
                 (2%Z, 1%Z, ExamSaver.category e)]) as Hd.
  destruct (Xlsx.add_rows 1 (map ExamSaver.toObject es) _) as [hdr cs].
  cbn [fst] in Hd. subst hdr.
  unfold Xlsx.row_cells. cbn.
  replace (seq 0 (Pos.to_nat 3)) with [0; 1; 2] by reflexivity.
  cbn [map].
  change (Z.of_nat 0) with 0%Z. change (Z.of_nat 1) with 1%Z.
  change (Z.of_nat 2) with 2%Z.
  rewrite get_set_same.
  rewrite (get_set_other (2, 0)%Z (1, 0)%Z), get_set_same by discriminate.
  rewrite (get_set_other (2, 0)%Z (0, 0)%Z), (get_set_other (1, 0)%Z (0, 0)%Z),
    get_set_same by discriminate.
  reflexivity.
Qed.

(** C5, as the code has it. Given no record, the exporter still writes
    a workbook with exactly one sheet, named [Exams]; that sheet has no
    data row and no header cell either, because [json_to_sheet] takes
    the header names from the keys of the records it is given. The
    header row with the field names is there as soon as there is one
    record. *)
Theorem export_empty (tr : list Node.event) :
  let empty := Xlsx.mkSheet [] ((0, 0), (0, 0))%Z in
  let book := Xlsx.mkBook ["Exams"%string] [("Exams"%string, empty)] in
  ExamSaver.export [] tr
  = (Node.Normal tt,
     tr ++ [Node.WriteFile "exams.xlsx" book;
            Node.ConsoleLog "Exams saved to exams.xlsx"])
  /\ EceScraper.export [] tr
     = (Node.Normal tt,
        tr ++ [Node.WriteFile "exams.xlsx" book;
               Node.ConsoleLog "Exams saved to exams.xlsx"])
  /\ Xlsx.row_cells empty 0 = [None]
  /\ (forall e es,
         Xlsx.row_cells
           (Xlsx.json_to_sheet (map ExamSaver.toObject (e :: es))) 0
         = [Some "title"; Some "url"; Some "category"]%string).
Proof.
  cbv zeta. refine (conj _ (conj _ (conj _ json_to_sheet_header))).
  - unfold ExamSaver.export. cbn.
    unfold Node.writeFile, Node.console_log, Node.emit, Node.bind.
    now rewrite <- List.app_assoc.
  - unfold EceScraper.export. cbn.
    unfold Node.writeFile, Node.console_log, Node.emit, Node.bind.
    now rewrite <- List.app_assoc.
  - reflexivity.
Qed.

(** C5, as stated, fails: the sheet written for an empty sequence has
    no cell, so its first row is not the row of the field names. *)
Lemma export_empty_no_header :
  exists wb ws,
    snd (ExamSaver.export [] [])
    = [Node.WriteFile "exams.xlsx" wb;
       Node.ConsoleLog "Exams saved to exams.xlsx"]
    /\ Xlsx.SheetNames wb = ["Exams"%string]
    /\ Xlsx.Sheets wb = [("Exams"%string, ws)]
    /\ Xlsx.cells ws = []
    /\ Xlsx.row_cells ws 0
       <> [Some "title"; Some "url"; Some "category"]%string.
Proof.
  eexists. eexists.
  split; [reflexivity|]. split; [reflexivity|]. split; [reflexivity|].
  split; [reflexivity|]. discriminate.
Qed.

(** ** Sorting *)

Section SortFacts.
Context {A : Type} (cmp : A -> A -> Z).

Lemma insert_perm (x : A) (l : list A) :
  Permutation (JS.insert cmp x l) (x :: l).
Proof.
  induction l as [|y l IH]; cbn [JS.insert]; [reflexivity|].
  destruct (cmp x y <=? 0)%Z; [reflexivity|].
  rewrite IH. apply perm_swap.
Qed.

Lemma sort_perm (l : list A) : Permutation (JS.sort cmp l) l.
Proof.
  induction l as [|x l IH]; cbn [JS.sort]; [reflexivity|].
  rewrite insert_perm. now constructor.
Qed.

Hypothesis cmp_consistent : Viewer.consistent cmp.

Let before (x y : A) : Prop := (cmp x y <= 0)%Z.

Lemma insert_sorted (x : A) (l : list A) :
  StronglySorted before l -> StronglySorted before (JS.insert cmp x l).
Proof.
  destruct cmp_consistent as [flip trans].
  induction 1 as [|y l Sl IH Fy]; cbn [JS.insert].
  - repeat constructor.
  - destruct (cmp x y <=? 0)%Z eqn:E.
    + apply Z.leb_le in E. constructor; [now constructor|].
      constructor; [exact E|].
      eapply Forall_impl; [|exact Fy]. intros z yz. now apply (trans x y z).
    + apply Z.leb_gt in E. constructor; [exact IH|].
      apply (Permutation_Forall (Permutation_sym (insert_perm x l))).
      constructor; [|exact Fy].
      apply flip in E. unfold before. lia.
Qed.

Lemma sort_sorted (l : list A) : StronglySorted before (JS.sort cmp l).
Proof.
  induction l as [|x l IH]; cbn [JS.sort]; [constructor|].
  now apply insert_sorted.
Qed.
End SortFacts.

Lemma filter_sorted {A} (R : A -> A -> Prop) (f : A -> bool) (l : list A) :
  StronglySorted R l -> StronglySorted R (filter f l).
Proof.
  induction 1 as [|x l Sl IH Fx]; cbn [filter]; [constructor|].
  destruct (f x); [|exact IH].
  constructor; [exact IH|].
  apply Forall_forall. intros y Iy. apply filter_In in Iy.
  rewrite Forall_forall in Fx. now apply Fx.
Qed.

(** ** The commit viewer *)

Section ViewerFacts.
Context `{Viewer.Engine}.
Import Viewer.

Let keyed (name : string) (c : CommitRow) : bool :=
  (group_key c =? name)%string.

Lemma Map_get_set (key k : string) (arr : list CommitRow) (m : Map_) :
  Map_get k (Map_set key arr m)
  = if (key =? k)%string then Some arr else Map_get k m.
Proof.
  induction m as [|[k' old] m IH]; cbn [Map_set Map_get].
  - destruct (key =? k)%string; reflexivity.
  - destruct (k' =? key)%string eqn:E; cbn [Map_get].
    + apply String.eqb_eq in E. subst k'.
      destruct (key =? k)%string; reflexivity.
    + destruct (k' =? k)%string eqn:E'; [|exact IH].
      apply String.eqb_eq in E'. subst k'. now rewrite String.eqb_sym, E.
Qed.

Lemma Map_get_In (k : string) (arr : list CommitRow) (m : Map_) :
  Map_get k m = Some arr -> In (k, arr) m.
Proof.
  induction m as [|[k' old] m IH]; cbn [Map_get]; [discriminate|].
  destruct (k' =? k)%string eqn:E.
  - apply String.eqb_eq in E. subst k'. intros [= ->]. now left.
  - intros G. right. now apply IH.
Qed.

Lemma Map_get_None (k : string) (m : Map_) :
  Map_get k m = None <-> ~ In k (map fst m).
Proof.
  induction m as [|[k' old] m IH]; cbn [Map_get map fst In].
  - tauto.
  - destruct (k' =? k)%string eqn:E.
    + apply String.eqb_eq in E. split; [discriminate | tauto].
    + apply String.eqb_neq in E. tauto.
Qed.

Lemma In_Map_get (k : string) (arr : list CommitRow) (m : Map_) :
  NoDup (map fst m) -> In (k, arr) m -> Map_get k m = Some arr.
Proof.
  induction m as [|[k' old] m IH]; cbn [Map_get map fst]; [easy|].
  intros ND [E | I].
  - injection E as -> ->. now rewrite String.eqb_refl.
  - apply NoDup_cons_iff in ND. destruct ND as [NI ND].
    destruct (k' =? k)%string eqn:E; [|now apply IH].
    apply String.eqb_eq in E. subst k'. elim NI.
    change k with (fst (k, arr)). now apply in_map.
Qed.

Lemma Map_set_keys (key : string) (arr : list CommitRow) (m : Map_) :
  map fst (Map_set key arr m)
  = match Map_get key m with
    | Some _ => map fst m
    | None => map fst m ++ [key]
    end.
Proof.
  induction m as [|[k old] m IH]; cbn [Map_set Map_get map fst];
    [reflexivity|].
  destruct (k =? key)%string; cbn [map fst]; [reflexivity|].
  rewrite IH. now destruct (Map_get key m).
Qed.

(** The map after the loop of [grouped] has run over [seen]: under
    each name, the commits of [seen] with that key, in the order of
    [seen]; no name without a commit. *)
Let groups_of (seen : list CommitRow) (m : Map_) : Prop :=
  NoDup (map fst m)
  /\ forall name,
      Map_get name m
      = match filter (keyed name) seen with
        | [] => None
        | arr => Some arr
        end.

Lemma group_step_inv (seen : list CommitRow) (m : Map_) (c : CommitRow) :
  groups_of seen m -> groups_of (seen ++ [c]) (group_step m c).
Proof.
  intros [ND G]. unfold group_step. fold (group_key c).
  assert (Kc : keyed (group_key c) c = true) by apply String.eqb_refl.
  split.
  - destruct (Map_get (group_key c) m) as [arr|] eqn:E;
      rewrite Map_set_keys, E; [exact ND|].
    apply NoDup_app; [exact ND | repeat constructor; easy |].
    intros a Ia [<- | []]. now apply Map_get_None in E.
  - intros name.
    assert (S : Map_get name
                  (Map_set (group_key c)
                     (filter (keyed (group_key c)) seen ++ [c]) m)
                = match filter (keyed name) (seen ++ [c]) with
                  | [] => None
                  | arr => Some arr
                  end).
    { rewrite Map_get_set, filter_app. cbn [filter].
      unfold keyed at 3. destruct (group_key c =? name)%string eqn:E.
      - apply String.eqb_eq in E. subst name.
        now destruct (filter (keyed (group_key c)) seen).
      - rewrite List.app_nil_r. apply G. }
    specialize (G (group_key c)) as Gc.
    destruct (Map_get (group_key c) m) as [arr|].
    + destruct (filter (keyed (group_key c)) seen) as [|c0 l] eqn:F;
        [discriminate|].
      injection Gc as ->. exact S.
    + destruct (filter (keyed (group_key c)) seen) as [|c0 l] eqn:F;
        [exact S | discriminate].
Qed.

Lemma group_loop_inv (todo seen : list CommitRow) (m : Map_) :
  groups_of seen m ->
  groups_of (seen ++ todo) (fold_left group_step todo m).
Proof.
  revert seen m. induction todo as [|c todo IH]; intros seen m Inv.
  - now rewrite List.app_nil_r.
  - cbn [fold_left].
    replace (seen ++ c :: todo) with ((seen ++ [c]) ++ todo)
      by now rewrite <- List.app_assoc.
    apply IH. now apply group_step_inv.
Qed.

Lemma fold_group_step (shown : list CommitRow) :
  groups_of shown (fold_left group_step shown []).
Proof.
  apply (group_loop_inv shown [] []). split; [constructor | easy].
Qed.

Lemma by_date_desc_consistent :
  consistent localeCompare -> consistent by_date_desc.
Proof.
  intros [flip trans]. unfold by_date_desc. split.
  - intros a b. apply flip.
  - intros a b c ab bc. eapply trans; eassumption.
Qed.

Lemma by_name_consistent :
  consistent localeCompare ->
  consistent (fun a b : string * list CommitRow =>
                localeCompare (fst a) (fst b)).
Proof.
  intros [flip trans]. split.
  - intros a b. apply flip.
  - intros a b c. apply trans.
Qed.

(** C8. Whatever the file holds and whatever the search text and the
    repository selected, the sections of the viewer split the
    filtered commits by repository name (each commit in the section of
    its name, no section empty, no name twice), the sections come in
    ascending order of their names, and inside a section the commits
    come in descending order of their author date, both as
    [localeCompare] orders the strings. These sections are what [Home]
    shows when the file is read and holds at least one commit. *)
Theorem grouped_sorted (consistent_compare : consistent localeCompare)
        (raw q repo : string) :
  let commits := load_rows raw in
  let shown := filtered commits q repo in
  let sections := grouped shown in
  NoDup (map fst sections)
  /\ Forall (fun section =>
               snd section <> []
               /\ snd section
                  = filter (fun c => (group_key c =? fst section)%string)
                           shown)
            sections
  /\ Forall (fun c => In (group_key c) (map fst sections)) shown
  /\ StronglySorted (fun a b => (localeCompare (fst a) (fst b) <= 0)%Z)
                    sections
  /\ Forall (fun section =>
               StronglySorted
                 (fun a b =>
                    (localeCompare (date_key b) (date_key a) <= 0)%Z)
                 (snd section))
            sections
  /\ (readFile_out_jsonl = Ok raw -> commits <> [] ->
      Home q repo
      = CommitsClient (List.length shown) (List.length commits) sections).
  Proof.
  cbv zeta.
  set (shown := filtered (load_rows raw) q repo).
  destruct (fold_group_step shown) as [ND G].
  assert (P : Permutation (grouped shown) (fold_left group_step shown []))
    by apply sort_perm.
  assert (Sec : forall name arr, In (name, arr) (grouped shown) ->
                                 arr <> [] /\ arr = filter (keyed name) shown).
  { intros name arr I. apply (Permutation_in _ P) in I.
    apply In_Map_get in I; [|exact ND]. rewrite G in I.
    destruct (filter (keyed name) shown); [discriminate|].
    injection I as <-. split; [discriminate | reflexivity]. }
  assert (Sorted : StronglySorted
                     (fun a b => (localeCompare (date_key b) (date_key a)
                                  <= 0)%Z) shown).
  { unfold shown, filtered. apply filter_sorted. unfold load_rows.
    apply (sort_sorted by_date_desc
             (by_date_desc_consistent consistent_compare)). }
  refine (conj _ (conj _ (conj _ (conj _ (conj _ _))))).
  - apply (Permutation_NoDup (Permutation_map fst (Permutation_sym P)) ND).
  - apply Forall_forall. intros [name arr] I. now apply Sec.
  - apply Forall_forall. intros c Ic.
    apply (Permutation_in _ (Permutation_map fst (Permutation_sym P))).
    apply Decidable.not_not.
    + destruct (in_dec string_dec (group_key c)
                  (map fst (fold_left group_step shown []))) as [I | NI];
        [now left | now right].
    + intros NI. apply Map_get_None in NI. rewrite G in NI.
      assert (Ik : In c (filter (keyed (group_key c)) shown)).
      { apply filter_In. split; [exact Ic | apply String.eqb_refl]. }
      destruct (filter (keyed (group_key c)) shown); [easy | discriminate].
  - apply (sort_sorted _ (by_name_consistent consistent_compare)).
  - apply Forall_forall. intros [name arr] I.
    destruct (Sec name arr I) as [_ ->]. cbn [snd].
    now apply filter_sorted.
  - intros Read Some_rows. unfold Home, loadCommitsFromRepoJsonl.
    rewrite Read. cbn [rbind]. fold shown.
    destruct (load_rows raw); [now elim Some_rows | reflexivity].
  Qed.
End ViewerFacts.

Section LoaderFacts.
Context `{Viewer.Engine}.
Import Viewer.

Lemma parseCommitRow_row (v : value) (row : CommitRow) :
  _parseCommitRow v = Ok (Some row) ->
  exists props,
    v = JObject props /\ coerced_from props row /\ sha row <> ""%string.
Proof.
  unfold _parseCommitRow.
  destruct v as [|b|n|s|items|props]; cbn [truthy typeof get].
  - discriminate.
  - rewrite orb_true_r. discriminate.
  - rewrite orb_true_r. discriminate.
  - rewrite orb_true_r. discriminate.
  - discriminate.
  - cbn [negb orb String.eqb Ascii.eqb Bool.eqb].
    intros Row.
    destruct (_asString (lookup "sha" props)) as [sha0|] eqn:Esha;
      cbn [rbind] in Row; [|discriminate].
    destruct (JS.truthy sha0) eqn:T; cbn [negb] in Row; [|discriminate].
    repeat match type of Row with
           | rbind ?x _ = _ =>
               destruct x eqn:?; cbn [rbind] in Row; [|discriminate]
           end.
    injection Row as <-. exists props.
    split; [reflexivity|]. split.
    + unfold coerced_from.
      cbn [org repo repo_full_name sha html_url api_url author_login
           committer_login commit_author_name commit_author_email
           commit_author_date commit_committer_name commit_committer_email
           commit_committer_date message].
      repeat split; assumption.
    + cbn [sha]. now apply truthy_true.
Qed.

Lemma load_line_app (rows : list CommitRow) (line : string) :
  load_line rows line = rows ++ line_rows line.
Proof.
  unfold line_rows, load_line.
  destruct (negb (JS.truthy (JS.trim line)));
    [now rewrite List.app_nil_r|].
  destruct (try_line (JS.trim line)) as [[row|]|e];
    now rewrite ?List.app_nil_r.
Qed.

Lemma load_loop (lines : list string) (rows : list CommitRow) :
  fold_left load_line lines rows = rows ++ flat_map line_rows lines.
Proof.
  revert rows. induction lines as [|line lines IH]; intros rows.
  - cbn. now rewrite List.app_nil_r.
  - cbn [fold_left flat_map].
    now rewrite IH, load_line_app, List.app_assoc.
Qed.

Lemma line_rows_row (line : string) (row : CommitRow) :
  In row (line_rows line) ->
  exists props,
    JSON_parse (JS.trim line) = Some (JObject props)
    /\ coerced_from props row /\ sha row <> ""%string.
Proof.
  unfold line_rows, load_line, try_line.
  destruct (negb (JS.truthy (JS.trim line))); [easy|].
  destruct (JSON_parse (JS.trim line)) as [v|]; cbn [rbind]; [|easy].
  destruct (_parseCommitRow v) as [[row'|]|e] eqn:P; [|easy|easy].
  intros [<- | []].
  destruct (parseCommitRow_row v row' P) as (props & -> & C & S).
  now exists props.
Qed.

(** C9. [loadCommitsFromRepoJsonl] throws only if the file cannot be
    read; whatever the content, a line that is blank, that is no
    JSON, that parses to something other than an object, or whose
    [sha] coerces to the empty string adds nothing, and every row
    returned comes from a line that parsed to an object: its [sha] is
    not empty and each field is the coercion of the property of the
    same name, to a string or, for the eight nullable fields, to a
    string or null. *)
Theorem loadCommits_skips (raw : string) :
  loadCommitsFromRepoJsonl
  = match readFile_out_jsonl with
    | Ok raw => Ok (load_rows raw)
    | Raise e => Raise e
    end
  /\ Permutation (load_rows raw) (flat_map line_rows (split_lines raw))
  /\ (forall line,
         JS.trim line = ""%string
         \/ JSON_parse (JS.trim line) = None
         \/ (exists v, JSON_parse (JS.trim line) = Some v
                       /\ (v = JNull
                           \/ typeof v <> "object"%string
                           \/ _asString (get v "sha") = Ok ""%string)) ->
         line_rows line = [])
  /\ Forall (fun row =>
               sha row <> ""%string
               /\ exists line props,
                   In line (split_lines raw)
                   /\ JSON_parse (JS.trim line) = Some (JObject props)
                   /\ coerced_from props row)
            (load_rows raw).
Proof.
  assert (P : Permutation (load_rows raw)
                          (flat_map line_rows (split_lines raw))).
  { unfold load_rows. cbv zeta. rewrite sort_perm.
    now rewrite load_loop. }
  refine (conj eq_refl (conj P (conj _ _))).
  - intros line Skip. unfold line_rows, load_line, try_line.
    destruct Skip as [Blank | [Bad | (v & Parsed & Other)]].
    + rewrite Blank. reflexivity.
    + destruct (negb (JS.truthy (JS.trim line))); [reflexivity|].
      now rewrite Bad.
    + destruct (negb (JS.truthy (JS.trim line))); [reflexivity|].
      rewrite Parsed. cbn [rbind]. unfold _parseCommitRow.
      destruct Other as [-> | [NotObject | NoSha]].
      * reflexivity.
      * apply String.eqb_neq in NotObject. rewrite NotObject.
        cbn [negb]. now rewrite orb_true_r.
      * destruct (negb (truthy v) || negb (typeof v =? "object")%string);
          [reflexivity|].
        rewrite NoSha. reflexivity.
  - apply Forall_forall. intros row I.
    apply (Permutation_in _ P) in I. apply in_flat_map in I.
    destruct I as (line & Il & Ir).
    destruct (line_rows_row line row Ir) as (props & Parsed & C & S).
    split; [exact S|]. now exists line, props.
Qed.
End LoaderFacts.

(** ** A comparison to run the viewer with *)

Lemma compare_units_cases (a b : string) :
  (a = b /\ Sample.compare_units a b = 0%Z)
  \/ (String_as_OT.lt a b /\ Sample.compare_units a b = (-1)%Z)
  \/ (String_as_OT.lt b a /\ Sample.compare_units a b = 1%Z).
Proof.
  unfold Sample.compare_units.
  destruct (String_as_OT.compare_spec a b); auto.
Qed.

Lemma compare_units_consistent : Viewer.consistent Sample.compare_units.
Proof.
  pose proof String_as_OT.lt_strorder as [irr tra].
  split.
  - intros a b.
    destruct (compare_units_cases a b) as [[E1 V1] | [[L1 V1] | [L1 V1]]],
             (compare_units_cases b a) as [[E2 V2] | [[L2 V2] | [L2 V2]]];
      rewrite V1, V2; try lia; subst; exfalso;
      solve [ eapply irr; eassumption
            | eapply irr; eapply tra; eassumption ].
  - intros a b c.
    destruct (compare_units_cases a b) as [[E1 V1] | [[L1 V1] | [L1 V1]]],
             (compare_units_cases b c) as [[E2 V2] | [[L2 V2] | [L2 V2]]],
             (compare_units_cases a c) as [[E3 V3] | [[L3 V3] | [L3 V3]]];
      rewrite V1, V2, V3; try lia; subst; intros _ _; exfalso;
      solve [ eapply irr; eassumption
            | eapply irr; eapply tra; eassumption
            | eapply irr; eapply tra; [eassumption|];
              eapply tra; eassumption ].
Qed.

Lemma grouped_sorted_witness :
  Viewer.consistent (@Viewer.localeCompare Sample.engine)
  /\ StronglySorted
       (fun a b => (Sample.compare_units (fst a) (fst b) <= 0)%Z)
       (@Viewer.grouped Sample.engine
          (@Viewer.filtered Sample.engine
             (@Viewer.load_rows Sample.engine Sample.out_jsonl) "fix" "all")).
Proof.
  split; [exact compare_units_consistent|].
  exact (proj1 (proj2 (proj2 (proj2
           (@grouped_sorted Sample.engine compare_units_consistent
              Sample.out_jsonl "fix" "all"))))).
Defined.

(** * Further properties *)

(** ** Every run of the three-category scraper *)

Section Runs.
Context `{Cheerio.API} `{Node.Host}.
Import Node Pipeline.


Lemma history_gets (steps : list (string * nat)) (k : nat)
      (tl : list event) :
  k <= List.length steps ->
  List.length (filter is_get (history steps k ++ tl))
  = k + List.length (filter is_get tl).
Proof.
  intros Hk. unfold history.
  destruct (page_events_count (firstn k steps) tl) as [G _].
  rewrite G, length_firstn. f_equal. lia.
Qed.

Lemma history_writes (steps : list (string * nat)) (k : nat)
      (tl : list event) :
  filter is_write (history steps k ++ tl) = filter is_write tl.
Proof.
  unfold history.
  induction (firstn k steps) as [|[category page] l IH]; [reflexivity|].
  cbn [flat_map ExamSaver.page_events List.app filter is_write].
  exact IH.
Qed.

(** X2. The first page whose step ends with an error decides the run:
    when the pages before page number [k] of the schedule are fetched
    and parsed and the step of page [k] ends with [e] (the rejection of
    axios, or the exception of [cheerio.load] on the data of a 2xx
    reply), the run makes exactly [k + 1] requests, logs [e] with
    [console.error] right after the last one, writes no file and ends
    with exit status 0. *)
Theorem main_aborts_at_first_failure (k : nat) (step : string * nat)
        (e : error)
        (scheduled : nth_error ExamSaver.schedule k = Some step)
        (fetched_before :
           forall i s, i < k -> nth_error ExamSaver.schedule i = Some s ->
                       page_error (reply_at ExamSaver.schedule i s) = None)
        (failed : page_error (reply_at ExamSaver.schedule k step) = Some e) :
  run ExamSaver.main
  = mkOutcome
      (history ExamSaver.schedule k
       ++ [progress_line step; request step; ConsoleError e])
      0
  /\ List.length (filter is_get (events (run ExamSaver.main))) = S k
  /\ filter is_write (events (run ExamSaver.main)) = [].
Proof.
  destruct (main_aborted k step e
              (run_steps_aborts ExamSaver.schedule k step e
                 scheduled fetched_before failed)) as (_ & E & _).
  split; [exact E|]. rewrite E. cbn [events].
  assert (Hk : k <= List.length ExamSaver.schedule).
  { apply Nat.lt_le_incl. apply nth_error_Some. congruence. }
  split.
  - rewrite (history_gets _ _ _ Hk). cbn. lia.
  - rewrite history_writes. reflexivity.
Qed.

(** A page answered with a success status and a body axios hands over
    as the string [html] is parsed from [html]. *)
Lemma page_step_served (category : string) (page : nat)
      (allExams : list ExamSaver.Exam) (tr : list event)
      (st : nat) (body html : string) :
  http (tr ++ [progress_line (category, page)])
       (ExamSaver.fetchPage_url page category) COOKIES
  = Response st body ->
  (200 <=? st) && (st <? 300) = true ->
  transformResponse body = DString html ->
  ExamSaver.page_step category page allExams tr
  = (Normal (allExams ++ ExamSaver.parseExams html category),
     tr ++ ExamSaver.page_events (category, page)).
Proof.
  unfold progress_line. cbn [fst snd]. intros Reply Ok2xx Text.
  unfold ExamSaver.page_step, ExamSaver.fetchPage, axios_get.
  unfold console_log, emit, bind, ret, ExamSaver.delay, setTimeout.
  rewrite Reply, Ok2xx. cbn [data]. rewrite Text.
  unfold ExamSaver.parse_page, ret, emit, ExamSaver.page_events.
  now rewrite <- !List.app_assoc.
Qed.

(** X3. When the site answers every request with a success status and
    a body that axios hands over as a string depending on the URL alone
    (the body itself when it is not JSON text, the string it denotes
    when it is a JSON string), the workbook written holds the sheet of
    the records of all 108 pages, category after category and page after
    page in the order fetched, each page's records in document order:
    nothing is dropped, merged or reordered. *)
Theorem processPages_collects (site : string -> string)
        (serves : forall tr url cookie,
            exists st body,
              http tr url cookie = Response st body
              /\ (200 <=? st) && (st <? 300) = true
              /\ transformResponse body = DString (site url)) :
  ExamSaver.processPages []
  = (Normal tt,
     history ExamSaver.schedule 108
     ++ [WriteFile "exams.xlsx"
           (book_of
              (flat_map
                 (fun step =>
                    ExamSaver.parseExams
                      (site (ExamSaver.fetchPage_url (snd step) (fst step)))
                      (fst step))
                 ExamSaver.schedule));
         ConsoleLog "Exams saved to exams.xlsx"]).
Proof.
  assert (Pass : forall steps allExams tr,
             run_steps steps allExams tr
             = (Normal
                  (allExams
                   ++ flat_map
                        (fun step =>
                           ExamSaver.parseExams
                             (site (ExamSaver.fetchPage_url (snd step)
                                                            (fst step)))
                             (fst step))
                        steps),
                tr ++ flat_map ExamSaver.page_events steps)).
  { induction steps as [|[category page] rest IH]; intros allExams tr.
    - cbn. now rewrite !List.app_nil_r.
    - destruct (serves (tr ++ [progress_line (category, page)])
                  (ExamSaver.fetchPage_url page category) COOKIES)
        as (st & body & Reply & Ok2xx & Text).
      cbn [run_steps].
      rewrite (bind_normal _ _ _ _ _
                 (page_step_served category page allExams tr st body _
                    Reply Ok2xx Text)).
      rewrite IH. cbn [flat_map fst snd].
      now rewrite <- !List.app_assoc. }
  rewrite processPages_run_steps.
  rewrite (bind_normal _ _ _ _ _ (Pass ExamSaver.schedule [] [])).
  rewrite export_events. cbn [List.app]. unfold history.
  replace (firstn 108 ExamSaver.schedule) with ExamSaver.schedule
    by reflexivity.
  reflexivity.
Qed.
End Runs.

Lemma main_aborts_at_first_failure_witness :
  Node.run (@ExamSaver.main Sample.two_blocks_cheerio Sample.turns_null)
  = Node.mkOutcome
      [Node.ConsoleLog "Fetching ECE page 0...";
       Node.HttpGet
         "https://exams.engsoc.uwaterloo.ca/?tag=electrical-and-computer"
         (Some "session=1"%string);
       Node.Timeout 1000;
       Node.ConsoleLog "Fetching ECE page 1...";
       Node.HttpGet
         "https://exams.engsoc.uwaterloo.ca/?tag=electrical-and-computer&paged=1"
         (Some "session=1"%string);
       Node.ConsoleError Node.load_error]
      0.
Proof.
  refine (proj1 (@main_aborts_at_first_failure Sample.two_blocks_cheerio
                   Sample.turns_null 1 ("ECE"%string, 1) Node.load_error
                   _ _ _)).
  - reflexivity.
  - intros [|i] s Hi Nth; [|lia]. injection Nth as <-. reflexivity.
  - reflexivity.
Defined.

Lemma processPages_collects_witness :
  exists tr,
    @ExamSaver.processPages Sample.two_blocks_cheerio Sample.up []
    = (Node.Normal tt,
       tr ++ [Node.WriteFile "exams.xlsx"
                (Pipeline.book_of
                   (flat_map
                      (fun step =>
                         [ExamSaver.mkExam "Final 2020"
                            "https://exams.engsoc.uwaterloo.ca//papers/f20.pdf"
                            (fst step)])
                      ExamSaver.schedule));
              Node.ConsoleLog "Exams saved to exams.xlsx"]).
Proof.
  eexists.
  refine (@processPages_collects Sample.two_blocks_cheerio Sample.up
            (fun _ => "<html></html>"%string) _).
  intros tr url cookie. exists 200, "<html></html>"%string.
  split; [|split]; reflexivity.
Defined.

(** ** The draft and the single-category scraper *)

Section OtherScrapers.
Context `{Cheerio.API} `{Node.Host}.
Import Node.







End OtherScrapers.

(** ** Trimmed text *)

Lemma trimStart_head (s t : string) (c : ascii) :
  JS.trimStart s = String c t -> JS.isWhiteSpace c = false.
Proof.
  induction s as [|a s IH]; cbn [JS.trimStart]; [discriminate|].
  destruct (JS.isWhiteSpace a) eqn:W; [exact IH|].
  intros [= <- _]. exact W.
Qed.

Lemma trimEnd_last (s t : string) (c : ascii) :
  JS.trimEnd s = (t ++ String c "")%string -> JS.isWhiteSpace c = false.
Proof.
  revert t. induction s as [|a s IH]; intros t; cbn [JS.trimEnd].
  - destruct t; discriminate.
  - destruct (JS.isWhiteSpace a && (JS.trimEnd s =? "")%string) eqn:W.
    + destruct t; discriminate.
    + destruct t as [|b t]; cbn [append].
      * intros [= -> E]. rewrite E in W. cbn in W.
        now rewrite andb_true_r in W.
      * intros [= _ E]. now apply (IH t).
Qed.

Lemma trimEnd_idem (s : string) : JS.trimEnd (JS.trimEnd s) = JS.trimEnd s.
Proof.
  induction s as [|a s IH]; [reflexivity|]. cbn [JS.trimEnd].
  destruct (JS.isWhiteSpace a && (JS.trimEnd s =? "")%string) eqn:W;
    [reflexivity|].
  cbn [JS.trimEnd]. now rewrite IH, W.
Qed.

Lemma trimStart_fixed (s : string) :
  match s with
  | EmptyString => True
  | String c _ => JS.isWhiteSpace c = false
  end ->
  JS.trimStart s = s.
Proof.
  destruct s as [|c s]; [reflexivity|]. cbn [JS.trimStart]. now intros ->.
Qed.

Lemma trim_idem (s : string) : JS.trim (JS.trim s) = JS.trim s.
Proof.
  unfold JS.trim.
  assert (Fix : JS.trimStart (JS.trimEnd (JS.trimStart s))
                = JS.trimEnd (JS.trimStart s)).
  { apply trimStart_fixed.
    destruct (JS.trimStart s) as [|c t] eqn:E; [exact I|].
    pose proof (trimStart_head _ _ _ E) as W.
    cbn [JS.trimEnd]. rewrite W. cbn [andb]. exact W. }
  rewrite Fix. apply trimEnd_idem.
Qed.

(** ** More on the parser and the request URL *)

Lemma Forall2_filter_right {A B} (R : A -> B -> Prop) (f : A -> bool)
      (l : list A) (l' : list B) :
  Forall2 R (filter f l) l' ->
  Forall (fun y => exists x, In x l /\ f x = true /\ R x y) l'.
Proof.
  remember (filter f l) as fl eqn:E. intros F.
  assert (Sub : forall x, In x fl -> In x l /\ f x = true).
  { intros x Ix. subst fl. now apply filter_In. }
  clear E. induction F as [|x y fl l' Rxy _ IH]; constructor.
  - exists x. destruct (Sub x (or_introl eq_refl)). auto.
  - apply IH. intros z Iz. apply Sub. now right.
Qed.

(** X6. Every record [parseExams] returns carries the category it was
    called with, a title that is not empty and that a further [trim]
    leaves unchanged, and a URL that is the base path followed by a link
    that is not empty. The same for the single-category scraper, which
    has no category field. *)
Theorem parseExams_records `{Cheerio.API} (html category : string) :
  Forall (fun e =>
            ExamSaver.category e = category
            /\ ExamSaver.title e <> ""%string
            /\ JS.trim (ExamSaver.title e) = ExamSaver.title e
            /\ exists link,
                link <> ""%string
                /\ ExamSaver.url e
                   = ("https://exams.engsoc.uwaterloo.ca/" ++ link)%string)
         (ExamSaver.parseExams html category)
  /\ Forall (fun e =>
               EceScraper.title e <> ""%string
               /\ JS.trim (EceScraper.title e) = EceScraper.title e
               /\ exists link,
                   link <> ""%string
                   /\ EceScraper.url e
                      = ("https://exams.engsoc.uwaterloo.ca/?tag=electrical-and-computer/"
                         ++ link)%string)
            (EceScraper.parseExams html).
Proof.
  split.
  - pose proof (Forall2_filter_right _ _ _ _ (parseExams_blocks html category))
      as F.
    eapply Forall_impl; [|exact F].
    intros e (el & _ & Both & T & C & link & L & U).
    unfold Cheerio.has_both in Both. apply andb_true_iff in Both.
    destruct Both as [Bt Bl]. rewrite L in Bl. cbn in Bl.
    split; [exact C|]. split; [rewrite T; now apply truthy_true|].
    split; [rewrite T; unfold Cheerio.block_title; apply trim_idem|].
    exists link. split; [now apply truthy_true | exact U].
  - pose proof (Forall2_filter_right _ _ _ _ (parseExams_blocks_ece html)) as F.
    eapply Forall_impl; [|exact F].
    intros e (el & _ & Both & T & link & L & U).
    unfold Cheerio.has_both in Both. apply andb_true_iff in Both.
    destruct Both as [Bt Bl]. rewrite L in Bl. cbn in Bl.
    split; [rewrite T; now apply truthy_true|].
    split; [rewrite T; unfold Cheerio.block_title; apply trim_idem|].
    exists link. split; [now apply truthy_true | exact U].
Qed.

Lemma append_inj_l (a x y : string) : (a ++ x = a ++ y)%string -> x = y.
Proof.
  induction a as [|c a IH]; cbn [append]; [easy|].
  intros [= E]. now apply IH.
Qed.

Lemma Number_toString_inj (n m : nat) :
  JS.Number_toString n = JS.Number_toString m -> n = m.
Proof.
  intros E. pose proof (Number_toString_reads_back n) as Rn.
  rewrite E, Number_toString_reads_back in Rn. congruence.
Qed.

Lemma Number_toString_nonempty (n : nat) :
  JS.Number_toString n <> ""%string.
Proof.
  intros E. pose proof (Number_toString_reads_back n) as Rn.
  rewrite E in Rn. discriminate.
Qed.

Lemma append_nil_r (s : string) : (s ++ "")%string = s.
Proof. induction s; cbn [append]; congruence. Qed.

Lemma fetchPage_url_form (page : nat) (category : string) :
  ExamSaver.fetchPage_url page category
  = ("https://exams.engsoc.uwaterloo.ca/" ++ "?tag="
     ++ ExamSaver.tag_of category
     ++ (if (page =? 0)%nat then ""
         else "&paged=" ++ JS.Number_toString page))%string.
Proof.
  unfold ExamSaver.fetchPage_url. cbv zeta.
  destruct (page =? 0); [now rewrite append_nil_r | reflexivity].
Qed.

(** X7. Two requests have the same URL only if they are for the same
    page index and the same tag: no two pages of a category, and no two
    categories with different tags, are fetched from one URL. *)
Theorem fetchPage_url_injective (page page' : nat)
        (category category' : string) :
  ExamSaver.fetchPage_url page category
  = ExamSaver.fetchPage_url page' category' ->
  page = page' /\ ExamSaver.tag_of category = ExamSaver.tag_of category'.
Proof.
  rewrite !fetchPage_url_form. intros E.
  apply (append_inj_l "https://exams.engsoc.uwaterloo.ca/") in E.
  apply (append_inj_l "?tag=") in E.
  assert (Paged : forall n m,
             ((if (n =? 0)%nat then ""
               else "&paged=" ++ JS.Number_toString n)
              = (if (m =? 0)%nat then ""
                 else "&paged=" ++ JS.Number_toString m))%string
             -> n = m).
  { intros [|n] [|m]; cbn [Nat.eqb]; try discriminate; [reflexivity|].
    intros P. apply (append_inj_l "&paged=") in P.
    now apply Number_toString_inj. }
  assert (T : ExamSaver.tag_of category = ExamSaver.tag_of category').
  { destruct (tag_of_cases category) as [Tc | [Tc | Tc]],
             (tag_of_cases category') as [Tc' | [Tc' | Tc']];
      rewrite Tc, Tc' in *; try reflexivity; exfalso;
      destruct page as [|n], page' as [|m];
      cbn [Nat.eqb append] in E; discriminate E. }
  split; [|exact T].
  rewrite T in E. apply (append_inj_l (ExamSaver.tag_of category')) in E.
  now apply Paged.
Qed.

Lemma fetchPage_url_injective_witness :
  ExamSaver.fetchPage_url 4 "ECE" = ExamSaver.fetchPage_url 4 "Physics"
  /\ ExamSaver.tag_of "ECE" = ExamSaver.tag_of "Physics".
Proof.
  split; [reflexivity|].
  exact (proj2 (fetchPage_url_injective 4 4 "ECE" "Physics" eq_refl)).
Defined.

(** ** The sheet of a non-empty export *)

Lemma add_rows_cells (es : list ExamSaver.Exam) :
  forall (R : nat) (cs : list (Xlsx.address * string)),
    let cs' := snd (Xlsx.add_rows R (map ExamSaver.toObject es)
                      (["title"; "url"; "category"]%string, cs)) in
    (forall c r, (r <= Z.of_nat R)%Z ->
                 Xlsx.get_cell (c, r) cs' = Xlsx.get_cell (c, r) cs)
    /\ (forall i x,
           nth_error es i = Some x ->
           let r := (Z.of_nat (R + i) + 1)%Z in
           Xlsx.get_cell (0%Z, r) cs' = Some (ExamSaver.title x)
           /\ Xlsx.get_cell (1%Z, r) cs' = Some (ExamSaver.url x)
           /\ Xlsx.get_cell (2%Z, r) cs' = Some (ExamSaver.category x)).
Proof.
  induction es as [|e es IH]; intros R cs; cbv zeta.
  - split; [reflexivity|]. intros [|i] x; discriminate.
  - cbn [map Xlsx.add_rows]. cbn [ExamSaver.toObject fold_left Xlsx.add_key].
    cbn [Xlsx.indexOf String.eqb Ascii.eqb Bool.eqb option_map].
    change (Z.of_nat 0) with 0%Z. change (Z.of_nat 1) with 1%Z.
    change (Z.of_nat 2) with 2%Z.
    set (row := (Z.of_nat R + 1)%Z).
    set (cs1 := Xlsx.set_cell (2%Z, row) (ExamSaver.category e)
                  (Xlsx.set_cell (1%Z, row) (ExamSaver.url e)
                     (Xlsx.set_cell (0%Z, row) (ExamSaver.title e) cs))).
    destruct (IH (S R) cs1) as [Keep Rows]. cbv zeta in Rows.
    assert (Row : forall c r, r <> row ->
                              Xlsx.get_cell (c, r) cs1 = Xlsx.get_cell (c, r) cs).
    { intros c r ne. unfold cs1.
      rewrite !get_set_other; [reflexivity| | |]; intros [= _ E]; now elim ne. }
    split.
    + intros c r Hr. rewrite Keep by lia. apply Row. unfold row. lia.
    + intros [|i] x Nth.
      * injection Nth as <-. rewrite Nat.add_0_r. fold row.
        rewrite !Keep by (unfold row; lia). unfold cs1.
        rewrite get_set_other, get_set_other, get_set_same by discriminate.
        rewrite get_set_other, get_set_same by discriminate.
        rewrite get_set_same. auto.
      * replace (R + S i) with (S R + i) by lia. now apply Rows.
Qed.

(** X8. For at least one record, the sheet written has the range
    A1 to C(n+1) for n records, the field names in its first row, and
    the title, URL and category of record number [i] in row [i + 1], in
    the order the records were collected. *)
Theorem export_layout (e : ExamSaver.Exam) (es : list ExamSaver.Exam) :
  let all := e :: es in
  let ws := Xlsx.json_to_sheet (map ExamSaver.toObject all) in
  Xlsx.ref ws = ((0, 0), (2, Z.of_nat (List.length all)))%Z
  /\ Xlsx.row_cells ws 0
     = [Some "title"; Some "url"; Some "category"]%string
  /\ forall i x,
      nth_error all i = Some x ->
      Xlsx.row_cells ws (Z.of_nat i + 1)
      = [Some (ExamSaver.title x); Some (ExamSaver.url x);
         Some (ExamSaver.category x)].
Proof.
  cbv zeta.
  refine (conj _ (conj (json_to_sheet_header e es) _)).
  - unfold Xlsx.json_to_sheet. cbn [map Xlsx.add_rows].
    cbn [ExamSaver.toObject fold_left Xlsx.add_key].
    cbn [Xlsx.indexOf String.eqb Ascii.eqb Bool.eqb option_map List.app
         List.length].
    pose proof (add_rows_header es 1
                  (Xlsx.set_cell (Z.of_nat 2, (Z.of_nat 0 + 1)%Z)
                     (ExamSaver.category e)
                     (Xlsx.set_cell (Z.of_nat 1, (Z.of_nat 0 + 1)%Z)
                        (ExamSaver.url e)
                        (Xlsx.set_cell (Z.of_nat 0, (Z.of_nat 0 + 1)%Z)
                           (ExamSaver.title e) [])))) as Hd.
    destruct (Xlsx.add_rows 1 (map ExamSaver.toObject es) _) as [hdr cs].
    cbn [fst] in Hd. subst hdr. cbn [Xlsx.ref List.length].
    rewrite length_map. f_equal. f_equal. lia.
  - intros i x Nth.
    pose proof (add_rows_cells (e :: es) 0 []) as [_ Rows].
    specialize (Rows i x Nth). cbv zeta in Rows.
    unfold Xlsx.json_to_sheet.
    pose proof (add_rows_header (e :: es) 0 []) as Hd.
    change (Xlsx.add_rows 0 (map ExamSaver.toObject (e :: es))
              (["title"; "url"; "category"]%string, []))
      with (Xlsx.add_rows 0 (map ExamSaver.toObject (e :: es)) ([], []))
      in Hd, Rows.
    destruct (Xlsx.add_rows 0 (map ExamSaver.toObject (e :: es)) ([], []))
      as [hdr cs].
    cbn [fst snd] in Hd, Rows. subst hdr.
    unfold Xlsx.row_cells. cbn [Xlsx.ref Xlsx.cells List.length].
    replace (Z.to_nat (Z.max 0 (Z.of_nat 3 - 1) - 0 + 1)) with 3 by reflexivity.
    cbn [seq map Xlsx.add_header].
    change (Z.of_nat 0) with 0%Z. change (Z.of_nat 1) with 1%Z.
    change (Z.of_nat 2) with 2%Z. cbn [Z.add] in *.
    destruct Rows as (Rt & Ru & Rc).
    assert (ne : forall c c' : Z, (c, 0%Z) <> (c', (Z.of_nat i + 1)%Z)).
    { intros c c' [= _ E]. lia. }
    rewrite !get_set_other by apply ne.
    cbn [Nat.add] in Rt, Ru, Rc. now rewrite Rt, Ru, Rc.
Qed.

(** ** More on the loader *)

Section LoaderMore.
Context `{Viewer.Engine}.
Import Viewer.

(** X9. [_parseCommitRow] gives a row for an object exactly when the
    fifteen coercions succeed and that of [sha] is not empty, and the
    row is then made of the coerced values; for anything that is not an
    object with properties (null, a boolean, a number, a string, an
    array) it gives null. *)
Theorem parseCommitRow_complete (props : list (string * value))
        (row : CommitRow) :
  (_parseCommitRow (JObject props) = Ok (Some row)
   <-> coerced_from props row /\ sha row <> ""%string)
  /\ (forall v, (forall props', v <> JObject props') ->
                _parseCommitRow v = Ok None).
Proof.
  split; [split|].
  - intros Row. destruct (parseCommitRow_row _ _ Row) as (props' & E & C & S).
    injection E as <-. now split.
  - intros [C S]. unfold coerced_from in C.
    destruct C as (C1 & C2 & C3 & C4 & C5 & C6 & C7 & C8 & C9 & C10 & C11
                   & C12 & C13 & C14 & C15).
    unfold _parseCommitRow. cbn [truthy typeof get].
    cbn [negb orb String.eqb Ascii.eqb Bool.eqb].
    rewrite C4. cbn [rbind].
    apply truthy_true in S. rewrite S. cbn [negb].
    rewrite C1, C2, C3, C5, C6, C7, C8, C9, C10, C11, C12, C13, C14, C15.
    cbn [rbind]. now destruct row.
  - intros v NotObject. unfold _parseCommitRow.
    destruct v as [|b|n|s|items|props']; cbn [truthy typeof get].
    + reflexivity.
    + now rewrite orb_true_r.
    + now rewrite orb_true_r.
    + now rewrite orb_true_r.
    + reflexivity.
    + now elim (NotObject props').
Qed.

Lemma String_primitive (v : value) :
  ClientView.primitive v = true -> exists s, String_ v = Ok s.
Proof.
  destruct v; cbn; try discriminate; eauto.
Qed.

Lemma lookup_In (k : string) (props : list (string * value)) (v : value) :
  lookup k props = Some v -> In (k, v) props.
Proof.
  induction props as [|[k' v'] props IH]; cbn [lookup]; [discriminate|].
  destruct (k' =? k)%string eqn:E.
  - apply String.eqb_eq in E. subst k'. intros [= ->]. now left.
  - intros L. right. now apply IH.
Qed.

(** X10. An object all of whose property values are null, booleans,
    numbers or strings never makes [_parseCommitRow] throw: it gives a
    row or null, so such a line is never skipped through the [catch] of
    the loader. *)
Theorem parseCommitRow_flat (props : list (string * value))
        (flat : Forall (fun kv => ClientView.primitive (snd kv) = true) props) :
  exists r, _parseCommitRow (JObject props) = Ok r.
Proof.
  assert (F1 : forall k, exists s, _asString (lookup k props) = Ok s).
  { intros k. unfold _asString.
    destruct (lookup k props) as [v|] eqn:L; [|eauto].
    apply lookup_In in L. rewrite Forall_forall in flat.
    specialize (flat _ L). cbn [snd] in flat.
    destruct v; try discriminate flat; cbn; eauto. }
  assert (F2 : forall k, exists o, _asStringOrNull (lookup k props) = Ok o).
  { intros k. unfold _asStringOrNull.
    destruct (lookup k props) as [v|] eqn:L; [|eauto].
    apply lookup_In in L. rewrite Forall_forall in flat.
    specialize (flat _ L). cbn [snd] in flat.
    destruct v; try discriminate flat; cbn; eauto. }
  unfold _parseCommitRow. cbn [truthy typeof get].
  cbn [negb orb String.eqb Ascii.eqb Bool.eqb].
  destruct (F1 "sha"%string) as [s0 ->]. cbn [rbind].
  destruct (negb (JS.truthy s0)); [eauto|].
  repeat match goal with
         | |- context [rbind (_asString (lookup ?k props)) _] =>
             let s := fresh "s" in
             destruct (F1 k) as [s ->]; cbn [rbind]
         | |- context [rbind (_asStringOrNull (lookup ?k props)) _] =>
             let o := fresh "o" in
             destruct (F2 k) as [o ->]; cbn [rbind]
         end.
  eauto.
Qed.

Lemma line_rows_length (line : string) :
  List.length (line_rows line)
  <= (if JS.truthy (JS.trim line) then 1 else 0).
Proof.
  unfold line_rows, load_line.
  destruct (JS.truthy (JS.trim line)); cbn [negb]; [|reflexivity].
  destruct (try_line (JS.trim line)) as [[row|]|e]; cbn; lia.
Qed.

(** X11. The rows the loader returns are in descending order of their
    author date string (null counting as the empty string), and there
    are at most as many rows as the file has lines that are not
    blank. *)
Theorem load_rows_sorted (consistent_compare : consistent localeCompare)
        (raw : string) :
  StronglySorted
    (fun a b => (localeCompare (date_key b) (date_key a) <= 0)%Z)
    (load_rows raw)
  /\ List.length (load_rows raw)
     <= List.length (filter (fun line => JS.truthy (JS.trim line))
                            (split_lines raw)).
Proof.
  split.
  - unfold load_rows. cbv zeta.
    apply (sort_sorted by_date_desc
             (by_date_desc_consistent consistent_compare)).
  - unfold load_rows. cbv zeta.
    rewrite (Permutation_length (sort_perm _ _)), load_loop.
    cbn [List.app].
    induction (split_lines raw) as [|line lines IH]; [reflexivity|].
    cbn [flat_map filter]. rewrite length_app.
    pose proof (line_rows_length line) as L.
    destruct (JS.truthy (JS.trim line)); cbn [List.length]; lia.
Qed.
End LoaderMore.

Lemma parseCommitRow_flat_witness :
  exists r,
    @Viewer._parseCommitRow Sample.engine
      (Viewer.JObject [("sha"%string, Viewer.JNumber 7%Z);
                       ("message"%string, Viewer.JNull)])
    = Viewer.Ok r.
Proof.
  apply (@parseCommitRow_flat Sample.engine).
  repeat constructor.
Defined.

Lemma load_rows_sorted_witness :
  Viewer.consistent (@Viewer.localeCompare Sample.engine)
  /\ List.length (@Viewer.load_rows Sample.engine Sample.out_jsonl) <= 5.
Proof.
  split; [exact compare_units_consistent|].
  exact (proj2 (@load_rows_sorted Sample.engine compare_units_consistent
                  Sample.out_jsonl)).
Defined.

(** ** Splitting the file into lines *)

Lemma split_lines_cons (c : ascii) (s : string) :
  Viewer.split_lines (String c s)
  = if Viewer.is_LF c then EmptyString :: Viewer.split_lines s
    else match s with
         | String d s' =>
             if Viewer.is_CR c && Viewer.is_LF d
             then EmptyString :: Viewer.split_lines s'
             else match Viewer.split_lines s with
                  | l :: ls => String c l :: ls
                  | [] => [String c EmptyString]
                  end
         | EmptyString =>
             match Viewer.split_lines s with
             | l :: ls => String c l :: ls
             | [] => [String c EmptyString]
             end
         end.
Proof. reflexivity. Qed.

Lemma split_lines_nonempty (s : string) : Viewer.split_lines s <> [].
Proof.
  destruct s as [|c s]; [discriminate|]. rewrite split_lines_cons.
  destruct (Viewer.is_LF c); [discriminate|].
  destruct s as [|d s'].
  - destruct (Viewer.split_lines ""); discriminate.
  - destruct (Viewer.is_CR c && Viewer.is_LF d); [discriminate|].
    destruct (Viewer.split_lines (String d s')); discriminate.
Qed.

(** X12. The file is cut at every line feed: the pieces number one
    more than the line feeds of the text, and no piece contains a line
    feed. *)
Theorem split_lines_cuts (s : string) :
  List.length (Viewer.split_lines s) = S (ClientView.line_feeds s)
  /\ Forall (fun line => ClientView.line_feeds line = 0)
            (Viewer.split_lines s).
Proof.
  assert (Strong : forall n s, String.length s <= n ->
                               List.length (Viewer.split_lines s)
                               = S (ClientView.line_feeds s)
                               /\ Forall (fun line =>
                                            ClientView.line_feeds line = 0)
                                         (Viewer.split_lines s)).
  { clear s. induction n as [|n IH]; intros s Len.
    - destruct s; [|cbn in Len; lia]. split; [reflexivity|].
      repeat constructor.
    - destruct s as [|c s]; [split; [reflexivity | repeat constructor]|].
      cbn [String.length] in Len. rewrite split_lines_cons.
      unfold ClientView.line_feeds. cbn [list_ascii_of_string filter].
      fold (ClientView.line_feeds s).
      destruct (IH s ltac:(lia)) as [Ls Fs].
      destruct (Viewer.is_LF c) eqn:Lc.
      + cbn [List.length]. split; [now rewrite Ls|].
        constructor; [reflexivity | exact Fs].
      + assert (Keep :
                  List.length
                    match Viewer.split_lines s with
                    | l :: ls => String c l :: ls
                    | [] => [String c EmptyString]
                    end
                  = S (ClientView.line_feeds s)
                  /\ Forall (fun line => ClientView.line_feeds line = 0)
                            match Viewer.split_lines s with
                            | l :: ls => String c l :: ls
                            | [] => [String c EmptyString]
                            end).
        { destruct (Viewer.split_lines s) as [|l ls] eqn:E;
            [now elim (split_lines_nonempty s)|].
          cbn [List.length] in *. split; [exact Ls|].
          inversion Fs as [|? ? Fl Fls]; subst. constructor; [|exact Fls].
          unfold ClientView.line_feeds in *.
          cbn [list_ascii_of_string filter]. now rewrite Lc. }
        destruct s as [|d s']; [exact Keep|].
        destruct (Viewer.is_CR c && Viewer.is_LF d) eqn:CRLF; [|exact Keep].
        apply andb_true_iff in CRLF. destruct CRLF as [_ Ld].
        cbn [String.length] in Len.
        destruct (IH s' ltac:(lia)) as [Ls' Fs'].
        unfold ClientView.line_feeds in *.
        cbn [list_ascii_of_string filter]. rewrite Ld.
        cbn [List.length]. split; [now rewrite Ls'|].
        constructor; [reflexivity | exact Fs']. }
  apply (Strong (String.length s)). reflexivity.
Qed.

Lemma concat_cons (sep x : string) (l : list string) :
  l <> [] -> String.concat sep (x :: l)
             = (x ++ sep ++ String.concat sep l)%string.
Proof. destruct l; [easy | reflexivity]. Qed.

(** X13. On a text without carriage returns, joining the pieces with
    line feeds gives the text back: nothing but the line feeds is
    removed by the split. *)
Theorem split_lines_join (s : string)
        (no_CR : Forall (fun c => Viewer.is_CR c = false)
                        (list_ascii_of_string s)) :
  String.concat ClientView.LF (Viewer.split_lines s) = s.
Proof.
  induction s as [|c s IH]; [reflexivity|].
  cbn [list_ascii_of_string] in no_CR.
  inversion no_CR as [|? ? Cc Cs]; subst. specialize (IH Cs).
  rewrite split_lines_cons.
  destruct (Viewer.is_LF c) eqn:Lc.
  - rewrite concat_cons by apply split_lines_nonempty. rewrite IH.
    unfold Viewer.is_LF in Lc. apply Nat.eqb_eq in Lc.
    rewrite <- (ascii_nat_embedding c), Lc. reflexivity.
  - assert (Keep :
              String.concat ClientView.LF
                match Viewer.split_lines s with
                | l :: ls => String c l :: ls
                | [] => [String c EmptyString]
                end
              = String c s).
    { destruct (Viewer.split_lines s) as [|l ls] eqn:E;
        [now elim (split_lines_nonempty s)|].
      destruct ls as [|l' ls].
      - cbn in IH |- *. now rewrite IH.
      - rewrite concat_cons in IH |- * by discriminate.
        cbn [append]. now rewrite IH. }
    destruct s as [|d s']; [exact Keep|].
    rewrite Cc. cbn [andb]. exact Keep.
Qed.

Lemma split_lines_join_witness :
  String.concat ClientView.LF
    (Viewer.split_lines ("one" ++ ClientView.LF ++ ClientView.LF ++ "two"))
  = ("one" ++ ClientView.LF ++ ClientView.LF ++ "two")%string.
Proof.
  apply split_lines_join. repeat constructor.
Defined.

(** ** Search, repository list and sections of the client *)

Lemma filter_idem {A} (f : A -> bool) (l : list A) :
  filter f (filter f l) = filter f l.
Proof.
  induction l as [|x l IH]; [reflexivity|]. cbn [filter].
  destruct (f x) eqn:E; [|exact IH]. cbn [filter]. now rewrite E, IH.
Qed.

Lemma list_sum_perm (l l' : list nat) :
  Permutation l l' -> list_sum l = list_sum l'.
Proof.
  induction 1; simpl; lia.
Qed.

Section ClientFacts.
Context `{Viewer.Engine}.
Import Viewer.

Lemma filtered_repo (commits : list CommitRow) (q repo : string)
      (c : CommitRow) :
  In c (filtered commits q repo) -> repo <> "all"%string ->
  repo_full_name c = repo.
Proof.
  unfold filtered. cbv zeta. intros Ic NotAll. apply filter_In in Ic.
  destruct Ic as [_ Keep].
  apply String.eqb_neq in NotAll. rewrite NotAll in Keep. cbn [negb] in Keep.
  destruct (repo_full_name c =? repo)%string eqn:E;
    [now apply String.eqb_eq in E | discriminate Keep].
Qed.

(** X14. What the search shows is taken from the commits given, in
    their order and without repetition beyond theirs: every commit
    shown is one of them, there are no more shown than given, a
    selected repository other than ["all"] leaves only commits of that
    repository, and filtering the result again with the same search
    changes nothing. *)
Theorem filtered_selects (commits : list CommitRow) (q repo : string) :
  Forall (fun c => In c commits
                   /\ (repo <> "all"%string -> repo_full_name c = repo))
         (filtered commits q repo)
  /\ List.length (filtered commits q repo) <= List.length commits
  /\ filtered (filtered commits q repo) q repo = filtered commits q repo.
Proof.
  unfold filtered. cbv zeta. split; [|split].
  - apply Forall_forall. intros c Ic. apply filter_In in Ic.
    destruct Ic as [Ic Keep]. split; [exact Ic|]. intros NotAll.
    apply String.eqb_neq in NotAll. rewrite NotAll in Keep. cbn [negb] in Keep.
    destruct (repo_full_name c =? repo)%string eqn:E;
      [now apply String.eqb_eq in E | discriminate Keep].
  - apply filter_length_le.
  - apply filter_idem.
Qed.

(** X15. White space around the search text does not count: the text
    and its trimmed form show the same commits. *)
Theorem filtered_trims_query (commits : list CommitRow) (q repo : string) :
  filtered commits (JS.trim q) repo = filtered commits q repo.
Proof.
  unfold filtered. cbv zeta. now rewrite trim_idem.
Qed.

(** X16. With nothing but white space in the search box and
    ["all"] selected, every commit is shown. *)
Theorem filtered_blank (commits : list CommitRow) (q : string)
        (lower_empty : toLowerCase "" = ""%string)
        (blank : JS.trim q = ""%string) :
  filtered commits q "all" = commits.
Proof.
  unfold filtered. cbv zeta. rewrite blank, lower_empty.
  cbn [String.eqb negb andb JS.truthy].
  induction commits as [|c commits IH]; [reflexivity|].
  cbn [filter]. now rewrite IH.
Qed.

(** The names collected by the loop of [repos] over [seen]. *)
Let names_of (seen : list CommitRow) (s : list string) : Prop :=
  NoDup s
  /\ forall x, In x s <-> x <> ""%string
                          /\ exists c, In c seen /\ repo_full_name c = x.

Lemma repos_loop (todo seen : list CommitRow) (s : list string) :
  names_of seen s ->
  names_of (seen ++ todo)
           (fold_left (fun s c =>
                         if JS.truthy (repo_full_name c)
                         then Set_add (repo_full_name c) s else s)
                      todo s).
Proof.
  revert seen s. induction todo as [|c todo IH]; intros seen s Inv.
  - now rewrite List.app_nil_r.
  - cbn [fold_left].
    replace (seen ++ c :: todo) with ((seen ++ [c]) ++ todo)
      by now rewrite <- List.app_assoc.
    apply IH. destruct Inv as [ND Mem].
    assert (Old : forall x, (x <> ""%string
                             /\ exists c', In c' (seen ++ [c])
                                           /\ repo_full_name c' = x)
                            <-> In x s
                                \/ (x <> ""%string /\ repo_full_name c = x)).
    { intros x. rewrite Mem. split.
      - intros (Nx & c' & Ic' & E). apply in_app_or in Ic'.
        destruct Ic' as [Ic' | [<- | []]]; [left | right]; eauto.
      - intros [(Nx & c' & Ic' & E) | (Nx & E)]; split; trivial.
        + exists c'. split; [apply in_or_app; now left | exact E].
        + exists c. split; [apply in_or_app; right; now left | exact E]. }
    destruct (JS.truthy (repo_full_name c)) eqn:T.
    + apply truthy_true in T. unfold Set_add.
      destruct (existsb (String.eqb (repo_full_name c)) s) eqn:E.
      * split; [exact ND|]. intros x. rewrite Old. split; [auto|].
        intros [I | (_ & <-)]; [exact I|].
        apply existsb_exists in E. destruct E as (y & Iy & Ey).
        apply String.eqb_eq in Ey. now subst y.
      * assert (NI : ~ In (repo_full_name c) s).
        { intros I. apply Bool.not_true_iff_false in E. apply E.
          apply existsb_exists. exists (repo_full_name c).
          split; [exact I | apply String.eqb_refl]. }
        split.
        -- apply NoDup_app; [exact ND | repeat constructor; easy |].
           intros a Ia [<- | []]. exact (NI Ia).
        -- intros x. rewrite Old, in_app_iff. cbn [In]. split.
           ++ intros [I | [<- | []]]; [now left | right; now split].
           ++ intros [I | (_ & <-)]; [now left | right; now left].
    + apply truthy_false in T. split; [exact ND|].
      intros x. rewrite Old. split; [auto|].
      intros [I | (Nx & E)]; [exact I | congruence].
Qed.

(** X17. The repository list starts with ["all"]; after it come,
    without repetition and in ascending order, exactly the non-empty
    repository names that occur among the commits. *)
Theorem repos_listing (consistent_compare : consistent localeCompare)
        (commits : list CommitRow) :
  exists names,
    repos commits = "all"%string :: names
    /\ NoDup names
    /\ StronglySorted (fun a b => (localeCompare a b <= 0)%Z) names
    /\ forall x, In x names
                 <-> x <> ""%string
                     /\ exists c, In c commits /\ repo_full_name c = x.
Proof.
  unfold repos. cbv zeta. eexists. split; [reflexivity|].
  destruct (repos_loop commits [] []) as [ND Mem].
  { split; [constructor|]. intros x. split; [easy|].
    intros (_ & c & [] & _). }
  cbn [List.app] in ND, Mem.
  set (s := fold_left _ commits []) in *.
  pose proof (sort_perm localeCompare s) as P.
  split; [|split].
  - exact (Permutation_NoDup (Permutation_sym P) ND).
  - apply (sort_sorted localeCompare consistent_compare).
  - intros x. rewrite <- Mem. split; apply Permutation_in;
      [exact P | exact (Permutation_sym P)].
Qed.

Lemma listed_set_new (key : string) (arr : list CommitRow) (m : Map_) :
  Map_get key m = None ->
  ClientView.listed (Map_set key arr m)
  = ClientView.listed m + List.length arr.
Proof.
  unfold ClientView.listed.
  induction m as [|[k old] m IH]; cbn [Map_get Map_set]; [simpl; lia|].
  destruct (k =? key)%string; [discriminate|].
  intros G. simpl in *. rewrite (IH G). lia.
Qed.

Lemma listed_set_old (key : string) (arr old : list CommitRow) (m : Map_) :
  Map_get key m = Some old ->
  ClientView.listed (Map_set key arr m) + List.length old
  = ClientView.listed m + List.length arr.
Proof.
  unfold ClientView.listed.
  induction m as [|[k old'] m IH]; cbn [Map_get Map_set]; [discriminate|].
  destruct (k =? key)%string.
  - intros [= ->]. simpl. lia.
  - intros G. specialize (IH G). simpl in *. lia.
Qed.

Lemma listed_group_step (m : Map_) (c : CommitRow) :
  ClientView.listed (group_step m c) = S (ClientView.listed m).
Proof.
  unfold group_step.
  destruct (Map_get _ m) as [arr|] eqn:G.
  - pose proof (listed_set_old _ (arr ++ [c]) _ _ G) as L.
    rewrite length_app in L. cbn [List.length] in L. lia.
  - rewrite (listed_set_new _ [c] _ G). cbn [List.length]. lia.
Qed.

(** X18. The sections list every commit shown once: the sizes of the
    sections add up to the number of commits the search shows, which
    is at most the number loaded. *)
Theorem grouped_counts (commits : list CommitRow) (q repo : string) :
  let shown := filtered commits q repo in
  ClientView.listed (grouped shown) = List.length shown
  /\ List.length shown <= List.length commits.
Proof.
  cbv zeta. split.
  - unfold grouped. cbv zeta.
    unfold ClientView.listed.
    rewrite (list_sum_perm _ _
               (Permutation_map (fun section => List.length (snd section))
                  (sort_perm _ _))).
    fold (ClientView.listed
            (fold_left group_step (filtered commits q repo) [])).
    assert (Loop : forall l m,
               ClientView.listed (fold_left group_step l m)
               = ClientView.listed m + List.length l).
    { induction l as [|c l IH]; intros m; cbn [fold_left List.length];
        [lia|].
      rewrite IH, listed_group_step. lia. }
    rewrite Loop. reflexivity.
  - unfold filtered. apply filter_length_le.
Qed.

(** X19. With a repository other than ["all"] selected there is at
    most one section, and it bears the name of that repository
    (["(unknown repo)"] if the name selected is empty). *)
Theorem grouped_single_repo (commits : list CommitRow) (q repo : string)
        (selected : repo <> "all"%string) :
  let sections := grouped (filtered commits q repo) in
  List.length sections <= 1
  /\ Forall (fun section =>
               fst section = JS.or_else (Some repo) "(unknown repo)")
            sections.
Proof.
  cbv zeta. set (shown := filtered commits q repo).
  destruct (fold_group_step shown) as [ND G].
  assert (P : Permutation (grouped shown) (fold_left group_step shown []))
    by apply sort_perm.
  assert (Named : Forall (fun section =>
                            fst section
                            = JS.or_else (Some repo) "(unknown repo)")
                         (grouped shown)).
  { apply Forall_forall. intros [name arr] I. cbn [fst].
    apply (Permutation_in _ P) in I. apply In_Map_get in I; [|exact ND].
    rewrite G in I.
    destruct (filter (fun c => (group_key c =? name)%string) shown)
      as [|c l] eqn:F; [discriminate|].
    assert (Ic : In c (filter (fun c => (group_key c =? name)%string) shown))
      by (rewrite F; now left).
    apply filter_In in Ic. destruct Ic as [Ic K].
    apply String.eqb_eq in K. subst name.
    destruct (filtered_repo commits q repo c Ic selected).
    reflexivity. }
  split; [|exact Named].
  assert (NDs : NoDup (map fst (grouped shown)))
    by exact (Permutation_NoDup (Permutation_map fst (Permutation_sym P)) ND).
  destruct (grouped shown) as [|s1 [|s2 rest]]; cbn [List.length]; try lia.
  exfalso. inversion Named as [|? ? N1 Rest]; subst.
  inversion Rest as [|? ? N2 _]; subst.
  cbn [map] in NDs. inversion NDs as [|? ? NI _]; subst.
  apply NI. left. congruence.
Qed.
End ClientFacts.

Lemma filtered_blank_witness :
  @Viewer.filtered Sample.engine
    (@Viewer.load_rows Sample.engine Sample.out_jsonl) "   " "all"
  = @Viewer.load_rows Sample.engine Sample.out_jsonl.
Proof.
  apply (@filtered_blank Sample.engine); reflexivity.
Defined.

Lemma repos_listing_witness :
  Viewer.consistent (@Viewer.localeCompare Sample.engine)
  /\ exists names,
      @Viewer.repos Sample.engine
        (@Viewer.load_rows Sample.engine Sample.out_jsonl)
      = "all"%string :: names
      /\ NoDup names.
Proof.
  split; [exact compare_units_consistent|].
  destruct (@repos_listing Sample.engine compare_units_consistent
              (@Viewer.load_rows Sample.engine Sample.out_jsonl))
    as (names & E & ND & _).
  exists names. now split.
Defined.

Lemma grouped_single_repo_witness :
  List.length
    (@Viewer.grouped Sample.engine
       (@Viewer.filtered Sample.engine
          (@Viewer.load_rows Sample.engine Sample.out_jsonl) "" "uw/tools"))
  <= 1.
Proof.
  refine (proj1 (@grouped_single_repo Sample.engine
                   (@Viewer.load_rows Sample.engine Sample.out_jsonl)
                   "" "uw/tools" _)).
  intros E. discriminate E.
Defined.

(** ** Section headers and commit headings *)

Lemma sorted_last {A} (R : A -> A -> Prop) (l : list A) (z : A) :
  (forall x, R x x) -> StronglySorted R l ->
  nth_error l (List.length l - 1) = Some z ->
  Forall (fun c => R c z) l.
Proof.
  intros Rrefl S. induction S as [|x l Sl IH Fx]; [constructor|].
  cbn [List.length]. rewrite Nat.sub_succ, Nat.sub_0_r.
  destruct l as [|y l].
  - cbn. intros [= <-]. repeat constructor. apply Rrefl.
  - cbn [nth_error List.length] in *.
    rewrite Nat.sub_succ, Nat.sub_0_r in IH. intros Nth.
    constructor; [|now apply IH].
    rewrite Forall_forall in Fx. apply Fx.
    apply (nth_error_In _ _ Nth).
Qed.

Section Headers.
Context `{Viewer.Engine}.
Import Viewer.

(** X20. In every section shown for a loaded file, the date announced
    as "latest" (that of the first commit of the section) is not before
    the date of any commit of the section, and the date announced as
    "oldest" (that of the last one) is not after any of them, dates
    being compared as [localeCompare] orders their strings and null
    counting as the empty string. *)
Theorem section_latest_oldest (consistent_compare : consistent localeCompare)
        (raw q repo : string) :
  Forall (fun section =>
            forall c, In c (snd section) ->
                      (localeCompare (date_key c)
                         (JS.or_else (ClientView.latest (snd section)) "")
                       <= 0)%Z
                      /\ (localeCompare
                            (JS.or_else (ClientView.oldest (snd section)) "")
                            (date_key c)
                          <= 0)%Z)
         (grouped (filtered (load_rows raw) q repo)).
Proof.
  set (shown := filtered (load_rows raw) q repo).
  set (R := fun a b : CommitRow =>
              (localeCompare (date_key b) (date_key a) <= 0)%Z).
  assert (Rrefl : forall x, R x x).
  { intros x. unfold R. destruct consistent_compare as [flip _].
    specialize (flip (date_key x) (date_key x)). lia. }
  assert (Sorted : StronglySorted R shown).
  { unfold shown, filtered. apply filter_sorted. unfold load_rows.
    apply (sort_sorted by_date_desc
             (by_date_desc_consistent consistent_compare)). }
  destruct (fold_group_step shown) as [ND G].
  apply Forall_forall. intros [name arr] I. cbn [snd].
  apply (Permutation_in _ (sort_perm _ _)) in I.
  apply In_Map_get in I; [|exact ND]. rewrite G in I.
  assert (Sarr : StronglySorted R arr).
  { destruct (filter (fun c => (group_key c =? name)%string) shown) eqn:F;
      [discriminate|].
    injection I as <-. rewrite <- F. now apply filter_sorted. }
  clear I. intros c Ic. split.
  - destruct arr as [|h arr]; [easy|].
    unfold ClientView.latest. cbn [nth_error]. fold (date_key h).
    destruct Ic as [<- | Ic]; [apply Rrefl|].
    inversion Sarr as [|? ? _ Fh]; subst.
    rewrite Forall_forall in Fh. now apply Fh.
  - unfold ClientView.oldest.
    destruct (nth_error arr (List.length arr - 1)) as [z|] eqn:Nth.
    + fold (date_key z).
      pose proof (sorted_last R arr z Rrefl Sarr Nth) as Fz.
      rewrite Forall_forall in Fz. now apply Fz.
    + exfalso. apply nth_error_None in Nth.
      destruct arr; [easy | cbn [List.length] in Nth; lia].
Qed.
End Headers.

Lemma section_latest_oldest_witness :
  Viewer.consistent (@Viewer.localeCompare Sample.engine)
  /\ map (fun section => ClientView.latest (snd section))
         (@Viewer.grouped Sample.engine
            (@Viewer.filtered Sample.engine
               (@Viewer.load_rows Sample.engine Sample.out_jsonl) "" "all"))
     = [Some "2024-03-01T08:30:00Z"; Some "2024-02-11T23:15:00Z"]%string
  /\ Forall (fun section =>
               forall c, In c (snd section) ->
                         (Sample.compare_units (@Viewer.date_key c)
                            (JS.or_else (ClientView.latest (snd section)) "")
                          <= 0)%Z)
            (@Viewer.grouped Sample.engine
               (@Viewer.filtered Sample.engine
                  (@Viewer.load_rows Sample.engine Sample.out_jsonl) "" "all")).
Proof.
  split; [exact compare_units_consistent|]. split; [reflexivity|].
  eapply Forall_impl;
    [|exact (@section_latest_oldest Sample.engine compare_units_consistent
               Sample.out_jsonl "" "all")].
  intros section Both c Ic. exact (proj1 (Both c Ic)).
Defined.

Lemma firstLine_cons (c : ascii) (s : string) :
  ClientView.firstLine (String c s)
  = if Viewer.is_LF c then EmptyString
    else String c (ClientView.firstLine s).
Proof.
  unfold ClientView.firstLine, ClientView.LF.
  cbn [index prefix].
  destruct (ascii_dec (ascii_of_nat 10) c) as [<- | ne].
  - replace (prefix "" s) with true by (destruct s; reflexivity).
    reflexivity.
  - assert (Lc : Viewer.is_LF c = false).
    { unfold Viewer.is_LF. apply Nat.eqb_neq. intros E. apply ne.
      now rewrite <- E, ascii_nat_embedding. }
    rewrite Lc.
    destruct (index 0 (String (ascii_of_nat 10) "") s) as [i|];
      reflexivity.
Qed.

(** X21. The heading of a commit is the start of its message up to the
    first line feed: it is a prefix of the message, contains no line
    feed, is the whole message when the message has none, and taking
    the first line twice is taking it once. *)
Theorem firstLine_heading (msg : string) :
  prefix (ClientView.firstLine msg) msg = true
  /\ ClientView.line_feeds (ClientView.firstLine msg) = 0
  /\ (ClientView.line_feeds msg = 0 -> ClientView.firstLine msg = msg)
  /\ ClientView.firstLine (ClientView.firstLine msg)
     = ClientView.firstLine msg.
Proof.
  assert (P2 : ClientView.line_feeds (ClientView.firstLine msg) = 0).
  { induction msg as [|c msg IH]; [reflexivity|]. rewrite firstLine_cons.
    destruct (Viewer.is_LF c) eqn:Lc; [reflexivity|].
    unfold ClientView.line_feeds in *.
    cbn [list_ascii_of_string filter]. now rewrite Lc. }
  assert (P3 : forall m, ClientView.line_feeds m = 0 ->
                         ClientView.firstLine m = m).
  { clear. induction m as [|c m IH]; [reflexivity|]. rewrite firstLine_cons.
    unfold ClientView.line_feeds in *.
    cbn [list_ascii_of_string filter].
    destruct (Viewer.is_LF c); [discriminate|]. intros Z. now rewrite IH. }
  split; [|split; [exact P2 | split; [apply P3 | now apply P3]]].
  clear. induction msg as [|c msg IH]; [reflexivity|]. rewrite firstLine_cons.
  destruct (Viewer.is_LF c); [reflexivity|]. cbn [prefix].
  destruct (ascii_dec c c) as [_ | ne]; [exact IH | now elim ne].
Qed.
